(** * Kya Khaoge: the two-stage food recommendation pipeline of app.py

    A shallow embedding of [load_data], [extract_user_info],
    [get_recommendations] and the chat input handler of [src/app.py].

    The script talks to four outside parties: the language model
    ([model.generate_content]), the JSON decoder ([json.loads]), pandas
    ([pd.read_csv], [DataFrame.to_json]) and Streamlit's secrets.  They are
    the variables of Section [App]; module [Demo] at the end instantiates
    them (with a JSON decoder written out in module [Json]) to run the
    script on concrete turns.

    Python [str] values are kept as their UTF-8 bytes in [string]. *)

From Stdlib Require Import List String Ascii ZArith Bool Lia.
Import ListNotations.
Open Scope string_scope.

(* ================================================================= *)
(** ** Text *)

Module Text.

(** The characters that cannot be typed inside a literal. *)
Definition dq : string := String (ascii_of_nat 34) EmptyString.
Definition nl : string := String (ascii_of_nat 10) EmptyString.

(** Lines of a triple-quoted literal, joined by newlines. *)
Fixpoint unlines (ls : list string) : string :=
  match ls with
  | [] => ""
  | [l] => l
  | l :: rest => l ++ nl ++ unlines rest
  end.

Local Open Scope N_scope.

Definition bytes (s : string) : list N := map N_of_ascii (list_ascii_of_string s).
Definition of_bytes (l : list N) : string := string_of_list_ascii (map ascii_of_N l).

(** The UTF-8 encodings of the code points [str.strip()] removes:
    U+0009..U+000D, U+001C..U+0020, U+0085, U+00A0, U+1680,
    U+2000..U+200A, U+2028, U+2029, U+202F, U+205F and U+3000. *)
Definition whitespace : list (list N) :=
  [[9]; [10]; [11]; [12]; [13]; [28]; [29]; [30]; [31]; [32];
   [194; 133]; [194; 160]; [225; 154; 128];
   [226; 128; 128]; [226; 128; 129]; [226; 128; 130]; [226; 128; 131];
   [226; 128; 132]; [226; 128; 133]; [226; 128; 134]; [226; 128; 135];
   [226; 128; 136]; [226; 128; 137]; [226; 128; 138];
   [226; 128; 168]; [226; 128; 169]; [226; 128; 175]; [226; 129; 159];
   [227; 128; 128]].

Fixpoint starts_with (pat l : list N) : bool :=
  match pat, l with
  | [], _ => true
  | a :: pat', b :: l' => (a =? b) && starts_with pat' l'
  | _ :: _, [] => false
  end.

(** The number of bytes of the pattern at the head of [l], 0 for none. *)
Definition head_length (pats : list (list N)) (l : list N) : nat :=
  match find (fun pat => starts_with pat l) pats with
  | Some pat => List.length pat
  | None => O
  end.

(** Drops the patterns at the head of [l], one per unit of [fuel]. *)
Fixpoint drop_leading (pats : list (list N)) (fuel : nat) (l : list N) : list N :=
  match fuel with
  | O => l
  | S fuel' =>
      match head_length pats l with
      | O => l
      | k => drop_leading pats fuel' (skipn k l)
      end
  end.

Definition lstrip_bytes (l : list N) : list N :=
  drop_leading whitespace (List.length l) l.

(** The right end is the left end of the reversed text, where the
    encodings read last byte first. *)
Definition rstrip_bytes (l : list N) : list N :=
  rev (drop_leading (map (@rev N) whitespace) (List.length l) (rev l)).

Definition strip (s : string) : string :=
  of_bytes (rstrip_bytes (lstrip_bytes (bytes s))).

(** [pat in s] *)
Fixpoint occurs (pat s : string) : bool :=
  prefix pat s ||
  match s with
  | EmptyString => false
  | String _ rest => occurs pat rest
  end.

(** The marker of a code fence. *)
Definition fence : string := "```".

(** [s.replace(old, new)] for a non-empty [old]: every occurrence, left to
    right, without overlap.  [skip] counts the characters of a match that
    are still to be dropped. *)
Fixpoint replace_from (skip : nat) (old new s : string) : string :=
  match s with
  | EmptyString => EmptyString
  | String c rest =>
      match skip with
      | S k => replace_from k old new rest
      | O =>
          if prefix old s
          then new ++ replace_from (String.length old - 1)%nat old new rest
          else String c (replace_from 0%nat old new rest)
      end
  end.

Definition replace (old new s : string) : string := replace_from 0%nat old new s.

(** [str.lower()] on the ASCII letters.  Python also lowers letters outside
    ASCII; the script only compares the lowered text with an ASCII literal
    made of letters no other code point lowers to, and that comparison is
    the same here. *)
Definition lower_ascii (c : ascii) : ascii :=
  let n := N_of_ascii c in
  if (65 <=? n) && (n <=? 90) then ascii_of_N (n + 32) else c.

Fixpoint lower (s : string) : string :=
  match s with
  | EmptyString => EmptyString
  | String c rest => String (lower_ascii c) (lower rest)
  end.

(** Decimal text of an integer, as [str(int)] and the f-string give it. *)
Fixpoint digits_of_pos (fuel : nat) (n : N) (acc : string) : string :=
  match fuel with
  | O => acc
  | S f =>
      let d := String (ascii_of_N (48 + N.modulo n 10)) acc in
      if N.div n 10 =? 0 then d else digits_of_pos f (N.div n 10) d
  end.

Definition str_of_N (n : N) : string := digits_of_pos (S (N.to_nat (N.log2 n))) n "".

Definition str_of_Z (z : Z) : string :=
  match z with
  | Z0 => "0"
  | Zpos p => str_of_N (Npos p)
  | Zneg p => "-" ++ str_of_N (Npos p)
  end.

End Text.

(* ================================================================= *)
(** ** Python values *)

(** A [float] decoded from a JSON literal, kept as the literal's exact
    value [m * 10^e] with its sign; [NaN] and the infinities are the
    literals [json.loads] also accepts. *)
Inductive pyfloat : Type :=
| FDec (neg : bool) (m : N) (e : Z)
| FInf (neg : bool)
| FNaN.

Set Warnings "-register-all".

(** What [json.loads] can return. A [dict] keeps its items in insertion
    order; its keys are strings and a lookup takes the first item with the
    key. *)
Inductive pyval : Type :=
| PNone
| PBool (b : bool)
| PInt (z : Z)
| PFloat (f : pyfloat)
| PStr (s : string)
| PList (l : list pyval)
| PDict (kv : list (string * pyval)).

(** The literal denotes a binary64 zero when it is at most half the
    smallest subnormal, [2^-1075] (the tie rounds to even, that is to 0). *)
Definition float_is_zero (f : pyfloat) : bool :=
  match f with
  | FDec _ m e =>
      if (m =? 0)%N then true
      else if (0 <=? e)%Z then false
      else (Z.of_N m * 2 ^ 1075 <=? 10 ^ (- e))%Z
  | FInf _ => false
  | FNaN => false
  end.

(** [bool(v)] *)
Definition py_truthy (v : pyval) : bool :=
  match v with
  | PNone => false
  | PBool b => b
  | PInt z => negb (z =? 0)%Z
  | PFloat f => negb (float_is_zero f)
  | PStr s => negb (s =? "")
  | PList l => match l with [] => false | _ => true end
  | PDict kv => match kv with [] => false | _ => true end
  end.

Fixpoint dict_get (kv : list (string * pyval)) (key : string) : option pyval :=
  match kv with
  | [] => None
  | (k, v) :: rest => if k =? key then Some v else dict_get rest key
  end.

Definition type_name (v : pyval) : string :=
  match v with
  | PNone => "NoneType"
  | PBool _ => "bool"
  | PInt _ => "int"
  | PFloat _ => "float"
  | PStr _ => "str"
  | PList _ => "list"
  | PDict _ => "dict"
  end.

(** Exceptions: every class below derives from [Exception], so
    [except Exception] catches each of them.  [exn_text] is [str(e)]. *)
Inductive exn_class : Type :=
| KeyError | AttributeError | TypeError | ValueError | JSONDecodeError
| OtherException (name : string).

Record exn : Type := Exn { exn_kind : exn_class; exn_text : string }.

Definition result (A : Type) : Type := (exn + A)%type.

(** [v.get(key)]: only a [dict] has the method. *)
Definition py_get (v : pyval) (key : string) : result pyval :=
  match v with
  | PDict kv => inr (match dict_get kv key with Some x => x | None => PNone end)
  | _ => inl (Exn AttributeError
                ("'" ++ type_name v ++ "' object has no attribute 'get'"))
  end.

(** What sends the chat handler to its [else] branch: a falsy
    [user_info], or one whose [get] gives a falsy location. *)
Definition no_usable_location (user_info : pyval) : Prop :=
  py_truthy user_info = false \/
  exists location, py_get user_info "location" = inr location /\
                   py_truthy location = false.

(** [v[key]] with a string key. *)
Definition py_getitem (v : pyval) (key : string) : result pyval :=
  match v with
  | PDict kv =>
      match dict_get kv key with
      | Some x => inr x
      | None => inl (Exn KeyError ("'" ++ key ++ "'"))
      end
  | PStr _ => inl (Exn TypeError "string indices must be integers, not 'str'")
  | PList _ => inl (Exn TypeError "list indices must be integers or slices, not str")
  | _ => inl (Exn TypeError ("'" ++ type_name v ++ "' object is not subscriptable"))
  end.

(** [v.lower()]: only a [str] has the method. *)
Definition py_lower (v : pyval) : result string :=
  match v with
  | PStr s => inr (Text.lower s)
  | _ => inl (Exn AttributeError
                ("'" ++ type_name v ++ "' object has no attribute 'lower'"))
  end.

(* ================================================================= *)
(** ** Tables *)

(** A pandas [DataFrame]: column labels and rows of cells. *)
Record DataFrame : Type := Frame { columns : list string; rows : list (list pyval) }.

(** [pd.DataFrame()] *)
Definition empty_frame : DataFrame := Frame [] [].

(** [df.empty]: some axis has length 0. *)
Definition empty (df : DataFrame) : bool :=
  match columns df, rows df with
  | [], _ => true
  | _, [] => true
  | _, _ => false
  end.

(* ================================================================= *)
(** ** The world the script runs in *)

Record message : Type := Message { role : string; content : string }.

Inductive func : Type := FLoadData | FExtractUserInfo | FGetRecommendations.

(** What a run does that can be observed from outside, oldest first.
    [Enter f] marks that the body of [f] started to run. *)
Inductive event : Type :=
| Generate (prompt : string)           (* model.generate_content(prompt) *)
| StError (text : string)              (* st.error(text) *)
| ChatMarkdown (who text : string)     (* with st.chat_message(who): st.markdown(text) *)
| Enter (f : func).

(** [st.session_state] has the one key [messages], absent until the first
    run; [st.cache_data] keeps the value [load_data] returned together with
    the texts of the [st.error] elements its body showed, which a cache hit
    shows again. *)
Record World : Type := MkWorld {
  session_messages : option (list message);
  data_cache : option (DataFrame * list string);
  trace : list event
}.

Definition initial_world : World := MkWorld None None [].

(** The prompts sent to the model, oldest first. *)
Fixpoint model_calls (t : list event) : list string :=
  match t with
  | [] => []
  | Generate p :: rest => p :: model_calls rest
  | _ :: rest => model_calls rest
  end.

(** The texts shown by [st.error], oldest first. *)
Fixpoint shown_errors (t : list event) : list string :=
  match t with
  | [] => []
  | StError text :: rest => text :: shown_errors rest
  | _ :: rest => shown_errors rest
  end.

Definition entered (f : func) (e : event) : bool :=
  match e, f with
  | Enter FLoadData, FLoadData => true
  | Enter FExtractUserInfo, FExtractUserInfo => true
  | Enter FGetRecommendations, FGetRecommendations => true
  | _, _ => false
  end.

(** How many times [f] was invoked. *)
Definition invocations (f : func) (t : list event) : nat :=
  List.length (filter (entered f) t).

(** Statements of the script: they read and change the world, and end
    with a value or with a raised exception. The world a statement
    reached stays as it is when it raises. *)
Definition M (A : Type) : Type := World -> result A * World.

Definition ret {A} (a : A) : M A := fun w => (inr a, w).
Definition raise {A} (e : exn) : M A := fun w => (inl e, w).
Definition lift {A} (r : result A) : M A := fun w => (r, w).

Definition bind {A B} (m : M A) (k : A -> M B) : M B :=
  fun w =>
    match m w with
    | (inr a, w1) => k a w1
    | (inl e, w1) => (inl e, w1)
    end.

(** [try: body  except Exception as e: handler] *)
Definition try_except {A} (body : M A) (handler : exn -> M A) : M A :=
  fun w =>
    match body w with
    | (inl e, w1) => handler e w1
    | ok => ok
    end.

Declare Scope py_scope.
Delimit Scope py_scope with py.
Notation "x <- c ;; k" := (bind c (fun x => k))
  (at level 61, c at next level, right associativity) : py_scope.
Notation "c ;; k" := (bind c (fun _ => k))
  (at level 61, right associativity) : py_scope.
Open Scope py_scope.

(** The world after some more events. *)
Definition add_events (w : World) (evs : list event) : World :=
  MkWorld (session_messages w) (data_cache w) (trace w ++ evs).

Definition emit (e : event) : M unit := fun w => (inr tt, add_events w [e]).

Definition st_error (text : string) : M unit := emit (StError text).
Definition chat_markdown (who text : string) : M unit := emit (ChatMarkdown who text).

Fixpoint for_each {A} (l : list A) (body : A -> M unit) : M unit :=
  match l with
  | [] => ret tt
  | x :: rest => body x ;; for_each rest body
  end.

(** [st.session_state.messages.append(m)] *)
Definition append_message (m : message) : M unit :=
  fun w =>
    match session_messages w with
    | Some ms => (inr tt, MkWorld (Some (ms ++ [m])%list) (data_cache w) (trace w))
    | None => (inl (Exn AttributeError
                      "st.session_state has no attribute 'messages'"), w)
    end.

(* ================================================================= *)
(** ** The script *)

(** Wall-clock time in Asia/Kolkata, as [datetime.now] gives it. *)
Inductive weekday : Type :=
| Monday | Tuesday | Wednesday | Thursday | Friday | Saturday | Sunday.

Record datetime : Type := DateTime { hour : nat; minute : nat; day : weekday }.

Definition two_digits (n : nat) : string :=
  (if (n <? 10)%nat then "0" else "") ++ Text.str_of_N (N.of_nat n).

(** [int(now.strftime("%I"))]: the hour on the 12-hour clock. *)
Definition hour12 (now : datetime) : nat :=
  match hour now mod 12 with
  | O => 12
  | h => h
  end.

Definition day_name (d : weekday) : string :=
  match d with
  | Monday => "Monday" | Tuesday => "Tuesday" | Wednesday => "Wednesday"
  | Thursday => "Thursday" | Friday => "Friday" | Saturday => "Saturday"
  | Sunday => "Sunday"
  end.

(** [f"{hour}{time_rest}"] with [time_rest = now.strftime(":%M %p on a %A")] *)
Definition current_time_str (now : datetime) : string :=
  Text.str_of_N (N.of_nat (hour12 now)) ++ ":" ++ two_digits (minute now) ++ " "
  ++ (if (hour now <? 12)%nat then "AM" else "PM") ++ " on a " ++ day_name (day now).

Definition rupee : string := Text.of_bytes [226; 130; 185]%N.
Definition collision : string := Text.of_bytes [240; 159; 146; 165]%N.

Definition greeting : message :=
  Message "assistant"
    "Hello! I'm your Mumbai Food Compass. Tell me your location, budget, and what you're craving, and I'll find the perfect meal for you!".

Definition unavailable_message : string :=
  "Sorry, the food database is currently unavailable.".

Definition clarification_message : string :=
  "I'm sorry, I couldn't understand your location. Could you please tell me where you are in Mumbai?".

(** The texts built around [str(e)]. *)
Definition trouble_text (e : exn) : string :=
  "Sorry, I had trouble understanding that. Could you be a bit more specific? (Error: "
  ++ exn_text e ++ ")".

Definition sorry_boss_text (e : exn) : string :=
  "Sorry, boss! Couldn't get a recommendation right now. Error: " ++ exn_text e.

Definition sheet_trouble_text (e : exn) : string :=
  collision ++ " Oops! Having trouble reading the food database. Please check the Google Sheet URL. Error: "
  ++ exn_text e.

(** The two rules of the extraction prompt that speak of defaults. *)
Definition budget_rule : string :=
  "    - **If the user does not mention a 'budget', assume it is 100 INR.**".

Definition craving_rule : string :=
  "    - **If the user does not mention a specific 'craving', set the craving to "
  ++ Text.dq ++ "anything" ++ Text.dq ++ ".**".

Definition extraction_prompt (user_message : string) : string :=
  Text.unlines [
    "";
    "    Extract location, budget (in INR), and food craving from the user's message.";
    "    Respond ONLY with a valid JSON object like {" ++ Text.dq ++ "location" ++ Text.dq
      ++ ": " ++ Text.dq ++ "..." ++ Text.dq ++ ", " ++ Text.dq ++ "budget" ++ Text.dq
      ++ ": ..., " ++ Text.dq ++ "craving" ++ Text.dq ++ ": " ++ Text.dq ++ "..."
      ++ Text.dq ++ "}.";
    "";
    "    RULES:";
    "    - The 'location' is mandatory. If you cannot find a location, set its value to null.";
    budget_rule;
    craving_rule;
    "";
    "    USER MESSAGE: " ++ Text.dq ++ user_message ++ Text.dq;
    "    "
  ].

(** The two instruction branches of the composer. *)
Definition popular_instruction : string :=
  "The user is open to anything, so recommend your most popular, iconic, or must-try dishes suitable for the location and time.".

Definition mood_instruction (craving : string) : string :=
  "The user is in the mood for '" ++ craving ++ "'.".

Definition recommendation_prompt
    (location budget current_time craving_instruction database_json : string) : string :=
  Text.unlines [
    "";
    "    You are 'Food Dost,' a local Mumbaikar friend who knows all the best khau gallis. ";
    "    Your tone should be friendly, casual, and use some Hinglish or Mumbai slang (like 'boss', 'mast', 'ekdum', 'paisa vasool').";
    "    Keep your answers short because the user is hungry.";
    "";
    "    A user is near '" ++ location ++ "' with a budget of " ++ rupee ++ budget ++ ".";
    "    It is currently " ++ current_time ++ " in Mumbai.";
    "    " ++ craving_instruction ++ ". Use this time context to make your recommendations more relevant (e.g., suggest breakfast in the morning, dinner spots in the evening, or late-night snacks after 10 PM).";
    "";
    "    From the JSON DATABASE below, recommend up to 3 of the best options.";
    "";
    "    Your goal is to give variety. If the user's budget allows, strongly prioritize recommending dishes from DIFFERENT stalls.";
    "";
    "    Respond ONLY with a list. For each recommendation, you MUST use the following format exactly, pulling the real link from the 'gmaps_link' field in the JSON:";
    "";
    "    **1. [Dish Name] at [Stall Name]**";
    "    * **Price:** " ++ rupee ++ "[Price]";
    "    * **Address:** [Landmark], [Location Area]";
    "    * **Why it's Mast:** [A very short, 1-sentence reason why it's a great choice for their specific craving and situation.]";
    "    * **Maps Link:** [Google Maps Link]";
    "";
    "    --- JSON DATABASE ---";
    "    " ++ database_json;
    "    "
  ].

(** A response of the model: reading [response.text] can itself raise. *)
Record response : Type := Response { text : result string }.

Section App.

(** [model.generate_content(prompt)], given how many calls came before. *)
Variable generate_content : nat -> string -> result response.
(** [json.loads] *)
Variable json_loads : string -> result pyval.
(** [st.secrets[name]] *)
Variable secrets : string -> result string.
(** [pd.read_csv(url)] *)
Variable read_csv : string -> result DataFrame.
(** [df.to_json(orient='records', indent=2)] *)
Variable to_json : DataFrame -> string.
(** [repr] of a float, a list or a dict, which is also their [str]. *)
Variable py_repr : pyval -> string.

(** The text an f-string puts in for [{v}]. *)
Definition py_str (v : pyval) : string :=
  match v with
  | PNone => "None"
  | PBool true => "True"
  | PBool false => "False"
  | PInt z => Text.str_of_Z z
  | PStr s => s
  | _ => py_repr v
  end.

Definition call_model (prompt : string) : M response :=
  fun w =>
    (generate_content (List.length (model_calls (trace w))) prompt,
     add_events w [Generate prompt]).

(** The text the composer returns for what the call number [n] gives on
    [prompt]. *)
Definition reply_or_apology (n : nat) (prompt : string) : string :=
  match generate_content n prompt with
  | inl e => sorry_boss_text e
  | inr response =>
      match text response with
      | inl e => sorry_boss_text e
      | inr reply => reply
      end
  end.

(** What the [try] block of [load_data] comes to. *)
Definition fetched : result DataFrame :=
  match secrets "SHEET_URL" with
  | inr sheet_url => read_csv sheet_url
  | inl e => inl e
  end.

(** The body of [load_data]. *)
Definition load_data_body : M DataFrame :=
  try_except
    (sheet_url <- lift (secrets "SHEET_URL") ;;
     df <- lift (read_csv sheet_url) ;;
     ret df)
    (fun e =>
       st_error (sheet_trouble_text e) ;;
       ret empty_frame).

(** [@st.cache_data]: the body runs when nothing is cached, and what it
    returned is kept; a raised exception is not cached. *)
Definition load_data : M DataFrame :=
  fun w =>
    match data_cache w with
    | Some (df, shown) => (inr df, add_events w (map StError shown))
    | None =>
        match (emit (Enter FLoadData) ;; load_data_body) w with
        | (inr df, w1) =>
            (inr df,
             MkWorld (session_messages w1)
                     (Some (df, shown_errors (skipn (List.length (trace w)) (trace w1))))
                     (trace w1))
        | (inl e, w1) => (inl e, w1)
        end
    end.

(** The fence markers go, then the text is decoded. *)
Definition clean_reply (reply : string) : string :=
  Text.strip (Text.replace "```" "" (Text.replace "```json" "" (Text.strip reply))).

Definition extract_user_info (user_message : string) : M pyval :=
  emit (Enter FExtractUserInfo) ;;
  let prompt := extraction_prompt user_message in
  try_except
    (response <- call_model prompt ;;
     reply <- lift (text response) ;;
     let json_str := clean_reply reply in
     lift (json_loads json_str))
    (fun e =>
       st_error (trouble_text e) ;;
       ret PNone).

(** What the [try] block of [extract_user_info] comes to on the call
    number [n] of the model, and what the function then returns. *)
Definition decoded (n : nat) (user_message : string) : result pyval :=
  match generate_content n (extraction_prompt user_message) with
  | inl e => inl e
  | inr response =>
      match text response with
      | inl e => inl e
      | inr reply => json_loads (clean_reply reply)
      end
  end.

Definition extracted (n : nat) (user_message : string) : pyval :=
  match decoded n user_message with
  | inr v => v
  | inl _ => PNone
  end.

(** What a call of [extract_user_info] adds to the trace. *)
Definition extraction_events (n : nat) (user_message : string) : list event :=
  Enter FExtractUserInfo :: Generate (extraction_prompt user_message) ::
  match decoded n user_message with
  | inl e => [StError (trouble_text e)]
  | inr _ => []
  end.

Definition get_recommendations
    (location budget craving : pyval) (food_data : DataFrame)
    (current_time_str : string) : M string :=
  emit (Enter FGetRecommendations) ;;
  if empty food_data then ret unavailable_message
  else
    let database_json := to_json food_data in
    lowered <- lift (py_lower craving) ;;
    let craving_instruction :=
      if lowered =? "anything" then popular_instruction
      else mood_instruction (py_str craving) in
    let prompt :=
      recommendation_prompt (py_str location) (py_str budget) current_time_str
                            craving_instruction database_json in
    try_except
      (response <- call_model prompt ;;
       lift (text response))
      (fun e => ret (sorry_boss_text e)).

(** [if "messages" not in st.session_state: ...] *)
Definition init_history : M unit :=
  fun w =>
    match session_messages w with
    | None => (inr tt, MkWorld (Some [greeting]) (data_cache w) (trace w))
    | Some _ => (inr tt, w)
    end.

(** [for message in st.session_state.messages: ...] *)
Definition display_history : M unit :=
  fun w =>
    match session_messages w with
    | Some ms => for_each ms (fun m => chat_markdown (role m) (content m)) w
    | None => (inl (Exn AttributeError
                      "st.session_state has no attribute 'messages'"), w)
    end.

(** [user_info and user_info.get("location")], as the [if] reads it. *)
Definition has_location (user_info : pyval) : M bool :=
  if py_truthy user_info
  then location <- lift (py_get user_info "location") ;; ret (py_truthy location)
  else ret false.

(** The [if]/[else] that sets [response_message], with the clock reading
    it would take. *)
Definition respond (now : datetime) (user_info : pyval) : M string :=
  usable <- has_location user_info ;;
  if usable : bool then
    let time_str := current_time_str now in
    food_data <- load_data ;;
    location <- lift (py_getitem user_info "location") ;;
    budget <- lift (py_getitem user_info "budget") ;;
    craving <- lift (py_getitem user_info "craving") ;;
    recommendation <-
      get_recommendations location budget craving food_data time_str ;;
    ret recommendation
  else
    ret clarification_message.

(** The body of [if prompt := st.chat_input(...)]. *)
Definition handle_prompt (now : datetime) (prompt : string) : M unit :=
  append_message (Message "user" prompt) ;;
  chat_markdown "user" prompt ;;
  user_info <- extract_user_info prompt ;;
  response_message <- respond now user_info ;;
  append_message (Message "assistant" response_message) ;;
  chat_markdown "assistant" response_message.

(** One run of the script from the title on, the model being configured:
    [chat_input] is what the user submitted, if anything. *)
Definition run_script (now : datetime) (chat_input : option string) : M unit :=
  init_history ;;
  display_history ;;
  match chat_input with
  | Some prompt =>
      if negb (prompt =? "") then handle_prompt now prompt else ret tt
  | None => ret tt
  end.

End App.

(* ================================================================= *)
(** ** The script from its first line, and a session of runs *)

Definition configuration_error_text : string :=
  collision ++ " Oops! It seems there's an issue with the AI model configuration. Please check the API key.".

(** The prompts a list of chat inputs submits: [None] and the empty text
    submit nothing. *)
Definition submitted_prompt (chat_input : option string) : list string :=
  match chat_input with
  | Some prompt => if negb (prompt =? "") then [prompt] else []
  | None => []
  end.

Definition submitted (runs : list (datetime * option string)) : list string :=
  flat_map (fun run => submitted_prompt (snd run)) runs.

(** The contents of the messages of one role, oldest first. *)
Definition said_by (who : string) (ms : list message) : list string :=
  map content (filter (fun m => role m =? who) ms).

(** The extracted values on which a turn runs to its end: no usable
    location, or an object with a truthy location, a budget and a craving,
    the craving being a string unless the table is empty. *)
Definition answerable (user_info : pyval) (table : DataFrame) : Prop :=
  no_usable_location user_info \/
  exists kv location budget craving,
    user_info = PDict kv /\
    dict_get kv "location" = Some location /\ py_truthy location = true /\
    dict_get kv "budget" = Some budget /\
    dict_get kv "craving" = Some craving /\
    (empty table = true \/ exists text, craving = PStr text).

(** How a step may use the cache of [load_data]: a cached table stays and
    the body is not entered; without one, either nothing happens or the
    body is entered once and a table is cached. *)
Definition cache_step (w w' : World) : Prop :=
  match data_cache w with
  | Some cached =>
      data_cache w' = Some cached /\
      invocations FLoadData (trace w') = invocations FLoadData (trace w)
  | None =>
      (data_cache w' = None /\
       invocations FLoadData (trace w') = invocations FLoadData (trace w)) \/
      (data_cache w' <> None /\
       invocations FLoadData (trace w') = S (invocations FLoadData (trace w)))
  end.

(** The history, empty while the key is absent. *)
Definition history (w : World) : list message :=
  match session_messages w with
  | Some ms => ms
  | None => []
  end.

Section Startup.

Variable generate_content : nat -> string -> result response.
Variable json_loads : string -> result pyval.
Variable secrets : string -> result string.
Variable read_csv : string -> result DataFrame.
Variable to_json : DataFrame -> string.
Variable py_repr : pyval -> string.
(** [genai.configure(api_key=...)] followed by
    [genai.GenerativeModel('gemini-2.5-flash-lite')] *)
Variable configure_model : string -> result unit.

(** The table [load_data] returns in a world: the cached one, or else
    what the fetch comes to. *)
Definition table_for (w : World) : DataFrame :=
  match data_cache w with
  | Some (df, _) => df
  | None =>
      match fetched secrets read_csv with
      | inr df => df
      | inl _ => empty_frame
      end
  end.

(** The configuration block succeeds. *)
Definition configured : Prop :=
  exists api_key, secrets "GEMINI_API_KEY" = inr api_key /\
                  configure_model api_key = inr tt.

(** The configuration block: [true] when the script goes on, [false] when
    it showed the error and [st.stop()] ended the run. *)
Definition configure : M bool :=
  try_except
    (api_key <- lift (secrets "GEMINI_API_KEY") ;;
     lift (configure_model api_key) ;;
     ret true)
    (fun e =>
       st_error configuration_error_text ;;
       ret false).

(** One run of the whole script. *)
Definition run_app (now : datetime) (chat_input : option string) : M unit :=
  configured <- configure ;;
  if configured : bool
  then run_script generate_content json_loads secrets read_csv to_json py_repr
                  now chat_input
  else ret tt.

(** Streamlit runs the script again on every interaction, on the session
    state and the cache the run before left, also when that run raised. *)
Fixpoint session (runs : list (datetime * option string)) (w : World) : World :=
  match runs with
  | [] => w
  | (now, chat_input) :: later => session later (snd (run_app now chat_input w))
  end.

End Startup.

(* ================================================================= *)
(** ** A JSON decoder *)

(** The grammar [json.loads] accepts, read from the UTF-8 bytes of the
    text: the values [null], [true], [false], [NaN], [Infinity] and
    [-Infinity], numbers, strings with their escapes, arrays and objects,
    with blanks (space, tab, line feed, carriage return) between tokens. *)
Module Json.

Local Open Scope N_scope.

Definition syntax_error {A} (what : string) : result A :=
  inl (Exn JSONDecodeError what).

Fixpoint skip_ws (s : list N) : list N :=
  match s with
  | c :: r => if (c =? 32) || (c =? 9) || (c =? 10) || (c =? 13) then skip_ws r else s
  | [] => []
  end.

Definition is_digit (c : N) : bool := (48 <=? c) && (c <=? 57).

(** Reads a run of digits: its value after [acc], its length, the rest. *)
Fixpoint take_digits (s : list N) (acc : N) (count : nat) : N * nat * list N :=
  match s with
  | c :: r =>
      if is_digit c then take_digits r (acc * 10 + (c - 48)) (S count)
      else (acc, count, s)
  | [] => (acc, count, [])
  end.

(** A number: an optional minus, then 0 or digits not starting with 0,
    then optionally a point with digits, then optionally e or E with a
    signed run of digits; the longest match is taken. Without fraction and
    exponent the number is an [int]. *)
Definition number (s : list N) : option (pyval * list N) :=
  let '(neg, s1) := match s with 45 :: r => (true, r) | _ => (false, s) end in
  let int_part :=
    match s1 with
    | 48 :: r => Some (0, r)
    | c :: _ =>
        if is_digit c
        then let '(v, _, r) := take_digits s1 0 0 in Some (v, r)
        else None
    | [] => None
    end in
  match int_part with
  | None => None
  | Some (iv, s2) =>
      let '(frac, s3) :=
        match s2 with
        | 46 :: r =>
            let '(m, k, r') := take_digits r iv 0 in
            match k with O => (None, s2) | _ => (Some (m, k), r') end
        | _ => (None, s2)
        end in
      let '(expo, s4) :=
        match s3 with
        | c :: r =>
            if (c =? 69) || (c =? 101) then
              let '(eneg, r1) :=
                match r with
                | 45 :: r' => (true, r')
                | 43 :: r' => (false, r')
                | _ => (false, r)
                end in
              let '(ev, k, r2) := take_digits r1 0 0 in
              match k with
              | O => (None, s3)
              | _ => (Some (if eneg then (- Z.of_N ev)%Z else Z.of_N ev), r2)
              end
            else (None, s3)
        | [] => (None, s3)
        end in
      match frac, expo with
      | None, None => Some (PInt (if neg then (- Z.of_N iv)%Z else Z.of_N iv), s4)
      | _, _ =>
          let '(m, k) := match frac with Some mk => mk | None => (iv, O) end in
          let e := match expo with Some e => e | None => 0%Z end in
          Some (PFloat (FDec neg m (e - Z.of_nat k)%Z), s4)
      end
  end.

Definition hex_digit (c : N) : option N :=
  if is_digit c then Some (c - 48)
  else if (97 <=? c) && (c <=? 102) then Some (c - 87)
  else if (65 <=? c) && (c <=? 70) then Some (c - 55)
  else None.

Definition hex4 (s : list N) : option (N * list N) :=
  match s with
  | a :: b :: c :: d :: r =>
      match hex_digit a, hex_digit b, hex_digit c, hex_digit d with
      | Some x, Some y, Some z, Some t => Some (((x * 16 + y) * 16 + z) * 16 + t, r)
      | _, _, _, _ => None
      end
  | _ => None
  end.

(** The UTF-8 bytes of a code point, last byte first. *)
Definition utf8_rev (cp : N) : list N :=
  if cp <? 128 then [cp]
  else if cp <? 2048 then [128 + cp mod 64; 192 + cp / 64]
  else if cp <? 65536 then [128 + cp mod 64; 128 + (cp / 64) mod 64; 224 + cp / 4096]
  else [128 + cp mod 64; 128 + (cp / 64) mod 64; 128 + (cp / 4096) mod 64;
        240 + cp / 262144].

(** A string after its opening quote; [acc] holds the bytes read, last
    first. *)
Fixpoint string_body (fuel : nat) (s : list N) (acc : list N) : result (string * list N) :=
  match fuel with
  | O => syntax_error "Unterminated string"
  | S fuel' =>
      match s with
      | [] => syntax_error "Unterminated string"
      | 34 :: r => inr (Text.of_bytes (rev acc), r)
      | 92 :: e :: r =>
          match e with
          | 34 | 92 | 47 => string_body fuel' r (e :: acc)
          | 98 => string_body fuel' r (8 :: acc)
          | 102 => string_body fuel' r (12 :: acc)
          | 110 => string_body fuel' r (10 :: acc)
          | 114 => string_body fuel' r (13 :: acc)
          | 116 => string_body fuel' r (9 :: acc)
          | 117 =>
              match hex4 r with
              | None => syntax_error "Invalid \uXXXX escape"
              | Some (hi, r1) =>
                  let pair :=
                    if (55296 <=? hi) && (hi <=? 56319) then
                      match r1 with
                      | 92 :: 117 :: r2 =>
                          match hex4 r2 with
                          | Some (lo, r3) =>
                              if (56320 <=? lo) && (lo <=? 57343)
                              then Some (65536 + (hi - 55296) * 1024 + (lo - 56320), r3)
                              else None
                          | None => None
                          end
                      | _ => None
                      end
                    else None in
                  match pair with
                  | Some (cp, r3) => string_body fuel' r3 (utf8_rev cp ++ acc)
                  | None => string_body fuel' r1 (utf8_rev hi ++ acc)
                  end
              end
          | _ => syntax_error "Invalid \escape"
          end
      | 92 :: [] => syntax_error "Unterminated string"
      | c :: r =>
          if c <? 32 then syntax_error "Invalid control character"
          else string_body fuel' r (c :: acc)
      end
  end.

Definition string_token (s : list N) : result (string * list N) :=
  string_body (List.length s) s [].

(** [dict[key] = v]: a key that is there keeps its place. *)
Fixpoint dict_set (kv : list (string * pyval)) (key : string) (v : pyval)
  : list (string * pyval) :=
  match kv with
  | [] => [(key, v)]
  | (k, x) :: rest =>
      if (k =? key)%string then (k, v) :: rest else (k, x) :: dict_set rest key v
  end.

Definition starts_with (word : string) (s : list N) : option (list N) :=
  let w := Text.bytes word in
  if forallb (fun p => fst p =? snd p) (combine w s) && (List.length w <=? List.length s)%nat
  then Some (skipn (List.length w) s) else None.

(** [value] reads one value at the head of [s]; [elements] the rest of an
    array after its bracket or a comma, [members] the rest of an object. *)
Fixpoint value (fuel : nat) (s : list N) : result (pyval * list N) :=
  match fuel with
  | O => inl (Exn (OtherException "RecursionError") "maximum recursion depth exceeded")
  | S fuel' =>
      match s with
      | 34 :: r =>
          match string_token r with
          | inr (str, r') => inr (PStr str, r')
          | inl e => inl e
          end
      | 91 :: r =>
          match skip_ws r with
          | 93 :: r' => inr (PList [], r')
          | r' => elements fuel' r' []
          end
      | 123 :: r =>
          match skip_ws r with
          | 125 :: r' => inr (PDict [], r')
          | r' => members fuel' r' []
          end
      | _ =>
          match starts_with "null" s, starts_with "true" s, starts_with "false" s with
          | Some r, _, _ => inr (PNone, r)
          | _, Some r, _ => inr (PBool true, r)
          | _, _, Some r => inr (PBool false, r)
          | _, _, _ =>
              match number s with
              | Some vr => inr vr
              | None =>
                  match starts_with "NaN" s, starts_with "Infinity" s,
                        starts_with "-Infinity" s with
                  | Some r, _, _ => inr (PFloat FNaN, r)
                  | _, Some r, _ => inr (PFloat (FInf false), r)
                  | _, _, Some r => inr (PFloat (FInf true), r)
                  | _, _, _ => syntax_error "Expecting value"
                  end
              end
          end
      end
  end
with elements (fuel : nat) (s : list N) (acc : list pyval) : result (pyval * list N) :=
  match fuel with
  | O => inl (Exn (OtherException "RecursionError") "maximum recursion depth exceeded")
  | S fuel' =>
      match value fuel' s with
      | inl e => inl e
      | inr (v, r) =>
          match skip_ws r with
          | 93 :: r' => inr (PList (rev (v :: acc)), r')
          | 44 :: r' => elements fuel' (skip_ws r') (v :: acc)
          | _ => syntax_error "Expecting ',' delimiter"
          end
      end
  end
with members (fuel : nat) (s : list N) (acc : list (string * pyval))
  : result (pyval * list N) :=
  match fuel with
  | O => inl (Exn (OtherException "RecursionError") "maximum recursion depth exceeded")
  | S fuel' =>
      match s with
      | 34 :: r =>
          match string_token r with
          | inl e => inl e
          | inr (key, r1) =>
              match skip_ws r1 with
              | 58 :: r2 =>
                  match value fuel' (skip_ws r2) with
                  | inl e => inl e
                  | inr (v, r3) =>
                      match skip_ws r3 with
                      | 125 :: r' => inr (PDict (dict_set acc key v), r')
                      | 44 :: r' => members fuel' (skip_ws r') (dict_set acc key v)
                      | _ => syntax_error "Expecting ',' delimiter"
                      end
                  end
              | _ => syntax_error "Expecting ':' delimiter"
              end
          end
      | _ => syntax_error "Expecting property name enclosed in double quotes"
      end
  end.

Definition loads (s : string) : result pyval :=
  let b := skip_ws (Text.bytes s) in
  match value (2 * List.length b + 3) b with
  | inl e => inl e
  | inr (v, r) =>
      match skip_ws r with
      | [] => inr v
      | _ => syntax_error "Extra data"
      end
  end.

End Json.

(* ================================================================= *)
(** ** A concrete setting *)

(** One choice of the outside parties, to run the script on concrete
    turns: a model that answers from a script of replies, the decoder of
    [Json], a sheet of two stalls, and plain renderings of a table and of
    the values the prompts below never have to show. *)
Module Demo.

Definition reply (body : string) : result response := inr (Response (inr body)).

Definition quota_exceeded : exn :=
  Exn (OtherException "ResourceExhausted") "429 quota exceeded".

(** The [n]-th call gets the [n]-th entry; later calls fail. *)
Definition scripted (replies : list (result response)) (n : nat) (prompt : string)
  : result response :=
  nth n replies (inl quota_exceeded).

Definition sheet_url : string := "https://docs.google.com/spreadsheets/d/e/kk/pub?output=csv".

Definition secrets (name : string) : result string :=
  if name =? "SHEET_URL" then inr sheet_url
  else inl (Exn KeyError ("'" ++ name ++ "'")).

Definition no_secrets (name : string) : result string :=
  inl (Exn KeyError ("'" ++ name ++ "'")).

Definition stalls : DataFrame :=
  Frame ["dish_name"; "stall_name"; "price"; "landmark"; "location_area"; "gmaps_link"]
        [[PStr "Vada Pav"; PStr "Aram"; PInt 25; PStr "Opp. CST"; PStr "Fort";
          PStr "https://maps.app.goo.gl/aram"];
         [PStr "Cheese Pav Bhaji"; PStr "Cannon"; PInt 180; PStr "Near BMC"; PStr "Fort";
          PStr "https://maps.app.goo.gl/cannon"]].

Definition read_csv (url : string) : result DataFrame := inr stalls.

Definition read_csv_down (url : string) : result DataFrame :=
  inl (Exn (OtherException "HTTPError") "HTTP Error 404: Not Found").

Fixpoint join (sep : string) (parts : list string) : string :=
  match parts with
  | [] => ""
  | [p] => p
  | p :: rest => p ++ sep ++ join sep rest
  end.

Definition cell (v : pyval) : string :=
  match v with
  | PStr s => Text.dq ++ s ++ Text.dq
  | PInt z => Text.str_of_Z z
  | PBool true => "true"
  | PBool false => "false"
  | _ => "null"
  end.

Definition record (cols : list string) (row : list pyval) : string :=
  "  {" ++ Text.nl
  ++ join ("," ++ Text.nl)
       (map (fun cv => "    " ++ Text.dq ++ fst cv ++ Text.dq ++ ":" ++ cell (snd cv))
            (combine cols row))
  ++ Text.nl ++ "  }".

Definition to_json (df : DataFrame) : string :=
  "[" ++ Text.nl ++ join ("," ++ Text.nl) (map (record (columns df)) (rows df))
  ++ Text.nl ++ "]".

Definition py_repr (v : pyval) : string := "<" ++ type_name v ++ ">".

(** A JSON object written with ['] for the quote. *)
Definition json (s : string) : string := Text.replace "'" Text.dq s.

Definition half_past_one : datetime := DateTime 13 30 Friday.

(** A session that showed the greeting and waits for input. *)
Definition greeted : World :=
  MkWorld (Some [greeting]) None [ChatMarkdown "assistant" (content greeting)].

Definition turn (replies : list (result response)) (prompt : string) : M unit :=
  handle_prompt (scripted replies) Json.loads secrets read_csv to_json py_repr
                half_past_one prompt.

Definition run (replies : list (result response)) (chat_input : option string) : M unit :=
  run_script (scripted replies) Json.loads secrets read_csv to_json py_repr
             half_past_one chat_input.

Definition configure_model (api_key : string) : result unit := inr tt.

Definition keys (name : string) : result string :=
  if name =? "SHEET_URL" then inr sheet_url
  else if name =? "GEMINI_API_KEY" then inr "AIza-demo"
  else inl (Exn KeyError ("'" ++ name ++ "'")).

(** A session with both secrets in place. *)
Definition visits (replies : list (result response))
    (runs : list (datetime * option string)) : World :=
  session (scripted replies) Json.loads keys read_csv to_json py_repr configure_model
          runs initial_world.

(** A model that answers a full intent and then a recommendation. *)
Definition cheesy_replies : list (result response) :=
  [reply (json "{'location': 'CST', 'budget': 200, 'craving': 'cheesy'}");
   reply "**1. Cheese Pav Bhaji at Cannon**"].

(** The page is opened, a prompt is submitted, the page is run again
    with nothing submitted. *)
Definition three_runs : list (datetime * option string) :=
  [(half_past_one, None);
   (half_past_one, Some "near CST, 200, something cheesy");
   (half_past_one, Some "")].

(** A world in which the empty table of a failed fetch is cached. *)
Definition fetch_failed : World :=
  MkWorld (Some [greeting])
          (Some (empty_frame, [sheet_trouble_text (Exn (OtherException "HTTPError")
                                                       "HTTP Error 404: Not Found")]))
          [ChatMarkdown "assistant" (content greeting)].

(** Replies of the model: no location found, a blank location, prose
    instead of JSON, a full intent. *)
Definition hungry_replies : list (result response) :=
  [reply (json "{'location': null, 'budget': 100, 'craving': 'anything'}")].

Definition blank_replies : list (result response) :=
  [reply (json "{'location': '', 'budget': 100, 'craving': 'anything'}")].

Definition prose_replies : list (result response) :=
  [reply "Sure! Could you tell me more about what you want?"].

Definition cheesy_reply : string :=
  json "{'location': 'CST', 'budget': 200, 'craving': 'cheesy'}".

(** The model answers with an object that has a location and nothing
    else, or with null for the craving. *)
Definition location_only : list (result response) :=
  [reply (json "{'location': 'CST'}")].

Definition null_craving : list (result response) :=
  [reply (json "{'location': 'CST', 'budget': 100, 'craving': null}")].

End Demo.

(* ================================================================= *)
(** ** Facts about the text functions and the decoder *)

Example strip_ex :
  Text.strip (Text.nl ++ "  ok " ++ Text.of_bytes [194; 160; 9; 226; 128; 137]%N) = "ok" /\
  Text.strip (Text.of_bytes [227; 128; 128; 194; 160] ++ "o k" ++ Text.nl)%N = "o k" /\
  Text.strip "   " = "".
Proof. vm_compute. repeat split; reflexivity. Qed.
Example replace_ex : Text.replace "```" "" "```json{}```" = "json{}".
Proof. vm_compute. reflexivity. Qed.
Example replace_ex2 : Text.replace "aa" "b" "aaaaa" = "bba".
Proof. vm_compute. reflexivity. Qed.
Example str_of_Z_ex : Text.str_of_Z 1200 = "1200" /\ Text.str_of_Z (-7) = "-7".
Proof. vm_compute. split; reflexivity. Qed.

Example loads_object :
  Json.loads (Demo.json "{'location': 'CST', 'budget': 200, 'craving': null}")
  = inr (PDict [("location", PStr "CST"); ("budget", PInt 200); ("craving", PNone)]).
Proof. vm_compute. reflexivity. Qed.

Example loads_rejects_prose :
  Json.loads "Sure! Here is the JSON you asked for." =
  inl (Exn JSONDecodeError "Expecting value").
Proof. vm_compute. reflexivity. Qed.

Example lower_ex : Text.lower "AnyThing" = "anything" /\ Text.lower "pav bhaji" = "pav bhaji".
Proof. vm_compute. split; reflexivity. Qed.

Example falsy_values :
  map py_truthy [PNone; PStr ""; PInt 0; PBool false; PFloat (FDec true 0 (-1));
                 PList []; PDict []]
  = [false; false; false; false; false; false; false] /\
  map py_truthy [PStr "0"; PInt (-1); PBool true; PFloat (FDec false 5 (-1));
                 PList [PNone]; PDict [("location", PNone)]]
  = [true; true; true; true; true; true].
Proof. vm_compute. split; reflexivity. Qed.

Example current_time_str_ex :
  current_time_str (DateTime 0 5 Monday) = "12:05 AM on a Monday" /\
  current_time_str (DateTime 13 30 Friday) = "1:30 PM on a Friday".
Proof. vm_compute. split; reflexivity. Qed.

(* ----------------------------------------------------------------- *)
(** *** No fence marker survives the cleaning *)

Lemma prefix_split (pat s : string) :
  prefix pat s = true -> exists rest, s = pat ++ rest.
Proof.
  revert s. induction pat as [| a pat IH]; intros s H.
  - exists s. reflexivity.
  - destruct s as [| b s]; [discriminate |]. cbn in H.
    destruct (ascii_dec a b) as [-> |]; [| discriminate].
    destruct (IH s H) as (rest & ->). exists rest. reflexivity.
Qed.

Lemma prefix_app_r (pat s tail : string) :
  prefix pat s = true -> prefix pat (s ++ tail) = true.
Proof.
  revert s. induction pat as [| a pat IH]; intros s H.
  { destruct s, tail; reflexivity. }
  destruct s as [| b s]; [discriminate |]. cbn in *.
  destruct (ascii_dec a b); [apply IH; exact H | discriminate].
Qed.

Lemma occurs_app_r (pat s tail : string) :
  Text.occurs pat s = true -> Text.occurs pat (s ++ tail) = true.
Proof.
  induction s as [| c s IH]; intros H.
  - cbn in H. rewrite orb_false_r in H.
    destruct pat; [destruct tail; reflexivity | discriminate].
  - cbn [Text.occurs append] in *. apply orb_true_iff in H. apply orb_true_iff.
    destruct H as [H | H].
    + left. apply (prefix_app_r pat (String c s) tail H).
    + right. apply IH. exact H.
Qed.

Lemma occurs_app_l (pat head s : string) :
  Text.occurs pat s = true -> Text.occurs pat (head ++ s) = true.
Proof.
  intros H. induction head as [| c head IH]; [exact H |].
  cbn [Text.occurs append]. rewrite IH. apply orb_true_r.
Qed.

Lemma of_bytes_app (a b : list N) :
  Text.of_bytes (a ++ b) = Text.of_bytes a ++ Text.of_bytes b.
Proof.
  unfold Text.of_bytes. induction a as [| x a IH]; [reflexivity |].
  cbn. rewrite IH. reflexivity.
Qed.

Lemma of_bytes_bytes (s : string) : Text.of_bytes (Text.bytes s) = s.
Proof.
  unfold Text.of_bytes, Text.bytes. induction s as [| c s IH]; [reflexivity |].
  cbn. rewrite IH, ascii_N_embedding. reflexivity.
Qed.

(** What [drop_leading] returns is the end of what it was given. *)
Lemma drop_leading_suffix (pats : list (list N)) (fuel : nat) (l : list N) :
  exists dropped, l = (dropped ++ Text.drop_leading pats fuel l)%list.
Proof.
  revert l. induction fuel as [| fuel IH]; intros l.
  - exists []. reflexivity.
  - cbn [Text.drop_leading]. destruct (Text.head_length pats l) as [| k].
    + exists []. reflexivity.
    + destruct (IH (skipn (S k) l)) as (dropped & Hd).
      exists (firstn (S k) l ++ dropped)%list.
      rewrite <- app_assoc, <- Hd. symmetry. apply firstn_skipn.
Qed.

(** [strip] cuts at both ends and changes nothing in between. *)
Lemma strip_infix (s : string) :
  exists head tail, s = head ++ Text.strip s ++ tail.
Proof.
  unfold Text.strip, Text.rstrip_bytes, Text.lstrip_bytes.
  destruct (drop_leading_suffix Text.whitespace (List.length (Text.bytes s)) (Text.bytes s))
    as (head & Hh).
  set (m := Text.drop_leading Text.whitespace _ _) in *.
  destruct (drop_leading_suffix (map (@rev N) Text.whitespace) (List.length m) (rev m))
    as (tail & Ht).
  set (k := Text.drop_leading (map (@rev N) Text.whitespace) _ _) in *.
  exists (Text.of_bytes head), (Text.of_bytes (rev tail)).
  rewrite <- !of_bytes_app, <- rev_app_distr, <- Ht, rev_involutive, <- Hh.
  symmetry. apply of_bytes_bytes.
Qed.

Lemma occurs_strip (pat s : string) :
  Text.occurs pat (Text.strip s) = true -> Text.occurs pat s = true.
Proof.
  intros H. destruct (strip_infix s) as (head & tail & Hs). rewrite Hs.
  apply occurs_app_l, occurs_app_r. exact H.
Qed.

(** The two ways [replace] moves over a text when it removes fences. *)
Lemma replace_fence_hit (rest : string) :
  Text.replace Text.fence "" (Text.fence ++ rest) = Text.replace Text.fence "" rest.
Proof.
  assert (Hp : prefix Text.fence (Text.fence ++ rest) = true) by (destruct rest; reflexivity).
  unfold Text.replace. cbn [Text.fence append Text.replace_from].
  cbn [Text.fence append] in Hp. rewrite Hp. reflexivity.
Qed.

Lemma replace_fence_miss (c : ascii) (rest : string) :
  prefix Text.fence (String c rest) = false ->
  Text.replace Text.fence "" (String c rest) = String c (Text.replace Text.fence "" rest).
Proof.
  intros H. unfold Text.replace. cbn [Text.replace_from]. rewrite H. reflexivity.
Qed.

(** What is left starts with a backquote only if the text did, and with
    two only if the text did. *)
Lemma replace_fence_head (s rest : string) :
  Text.replace Text.fence "" s = String "`" rest -> exists s', s = String "`" s'.
Proof.
  intros H. destruct s as [| c s]; [discriminate |].
  destruct (prefix Text.fence (String c s)) eqn:Hp.
  - destruct (prefix_split _ _ Hp) as (t & Ht). cbn in Ht.
    injection Ht as -> _. exists s. reflexivity.
  - rewrite (replace_fence_miss c s Hp) in H. injection H as -> _. exists s. reflexivity.
Qed.

Lemma replace_fence_head2 (s rest : string) :
  Text.replace Text.fence "" s = String "`" (String "`" rest) ->
  exists s', s = String "`" (String "`" s').
Proof.
  intros H. destruct s as [| c s]; [discriminate |].
  destruct (prefix Text.fence (String c s)) eqn:Hp.
  - destruct (prefix_split _ _ Hp) as (t & Ht). rewrite Ht. eexists. reflexivity.
  - rewrite (replace_fence_miss c s Hp) in H. injection H as -> H.
    destruct (replace_fence_head s _ H) as (s' & ->). exists s'. reflexivity.
Qed.

Lemma no_fence_after_replace (s : string) :
  Text.occurs Text.fence (Text.replace Text.fence "" s) = false.
Proof.
  remember (String.length s) as n eqn:Hn.
  revert s Hn. induction n as [n IH] using lt_wf_ind. intros s Hn.
  destruct s as [| c s]; [reflexivity |].
  destruct (prefix Text.fence (String c s)) eqn:Hp.
  - destruct (prefix_split _ _ Hp) as (t & Ht). rewrite Ht, replace_fence_hit.
    apply (IH (String.length t)); [| reflexivity].
    subst n. rewrite Ht. cbn. lia.
  - rewrite (replace_fence_miss c s Hp). cbn [Text.occurs].
    rewrite (IH (String.length s)); [| subst n; cbn; lia | reflexivity].
    rewrite orb_false_r.
    destruct (prefix Text.fence (String c (Text.replace Text.fence "" s))) eqn:Hq; [| reflexivity].
    destruct (prefix_split _ _ Hq) as (t & Ht). cbn in Ht. injection Ht as -> Ht.
    destruct (replace_fence_head2 s t Ht) as (s' & ->).
    destruct s'; discriminate Hp.
Qed.

(** The text handed to the JSON decoder holds no fence marker. *)
Theorem clean_reply_has_no_fence (reply : string) :
  Text.occurs "```" (clean_reply reply) = false.
Proof.
  unfold clean_reply.
  destruct (Text.occurs "```" (Text.strip _)) eqn:H; [| reflexivity].
  apply occurs_strip in H.
  pose proof (no_fence_after_replace (Text.replace "```json" "" (Text.strip reply)))
    as Hnone.
  unfold Text.fence in Hnone. rewrite Hnone in H. discriminate.
Qed.

(* ================================================================= *)
(** ** Facts about traces *)

Lemma model_calls_app (t u : list event) :
  model_calls (t ++ u) = (model_calls t ++ model_calls u)%list.
Proof.
  induction t as [| e t IH]; simpl; [reflexivity |].
  destruct e; simpl; rewrite IH; reflexivity.
Qed.

Lemma invocations_app (f : func) (t u : list event) :
  invocations f (t ++ u) = invocations f t + invocations f u.
Proof.
  unfold invocations. rewrite filter_app, length_app. reflexivity.
Qed.

Lemma add_events_nil (w : World) : add_events w [] = w.
Proof. destruct w; unfold add_events; simpl. rewrite app_nil_r. reflexivity. Qed.

Lemma add_events_add (w : World) (t u : list event) :
  add_events (add_events w t) u = add_events w (t ++ u).
Proof. unfold add_events; simpl. rewrite app_assoc. reflexivity. Qed.

(** The events a step adds that are no call of the model leave the number
    of the next call as it was. *)
Lemma calls_after_silent (w : World) (evs : list event) :
  model_calls evs = [] ->
  List.length (model_calls (trace (add_events w evs))) = List.length (model_calls (trace w)).
Proof.
  intros H. unfold add_events; simpl.
  rewrite model_calls_app, H, app_nil_r. reflexivity.
Qed.

(* ================================================================= *)
(** ** Facts about the script *)

Section Facts.

Variable generate_content : nat -> string -> result response.
Variable json_loads : string -> result pyval.
Variable secrets : string -> result string.
Variable read_csv : string -> result DataFrame.
Variable to_json : DataFrame -> string.
Variable py_repr : pyval -> string.

#[local] Abbreviation extract := (extract_user_info generate_content json_loads).
#[local] Abbreviation compose := (get_recommendations generate_content to_json py_repr).
#[local] Abbreviation load := (load_data secrets read_csv).
#[local] Abbreviation answer := (respond generate_content secrets read_csv to_json py_repr).
#[local] Abbreviation handle :=
  (handle_prompt generate_content json_loads secrets read_csv to_json py_repr).
#[local] Abbreviation script :=
  (run_script generate_content json_loads secrets read_csv to_json py_repr).

(** [extract_user_info] step by step: it enters, calls the model once, and
    shows an error when the [try] block raised; it never raises. *)
Lemma extract_user_info_run (user_message : string) (w : World) :
  let n := List.length (model_calls (trace w)) in
  extract user_message w =
  (inr (extracted generate_content json_loads n user_message),
   add_events w (extraction_events generate_content json_loads n user_message)).
Proof.
  unfold extract_user_info, extracted, extraction_events, decoded, bind,
    try_except, call_model, lift, st_error, emit, ret.
  rewrite (calls_after_silent w [Enter FExtractUserInfo] eq_refl).
  destruct (generate_content _ _) as [e | resp]; cbn [fst snd].
  - rewrite !add_events_add. reflexivity.
  - destruct (text resp) as [e | reply]; cbn [fst snd].
    + rewrite !add_events_add. reflexivity.
    + destruct (json_loads (clean_reply reply)) as [e | v]; cbn [fst snd];
        rewrite !add_events_add; reflexivity.
Qed.

Lemma extraction_events_calls (n : nat) (user_message : string) :
  model_calls (extraction_events generate_content json_loads n user_message)
  = [extraction_prompt user_message].
Proof.
  unfold extraction_events. cbn [model_calls].
  destruct (decoded _ _ _ _); reflexivity.
Qed.

Lemma extraction_events_composer (n : nat) (user_message : string) :
  invocations FGetRecommendations
    (extraction_events generate_content json_loads n user_message) = 0.
Proof.
  unfold extraction_events, invocations. cbn [filter entered].
  destruct (decoded _ _ _ _); reflexivity.
Qed.

Lemma skipn_past {A} (t rest : list A) : skipn (List.length t) (t ++ rest) = rest.
Proof. induction t as [| y t IH]; simpl; [reflexivity | exact IH]. Qed.

(** [load_data] step by step: a cache hit shows again what the body had
    shown; a miss runs the body, which turns every failure into the empty
    table, and keeps what it returned. *)
Lemma load_data_run (w : World) :
  load w =
  match data_cache w with
  | Some (df, shown) => (inr df, add_events w (map StError shown))
  | None =>
      match fetched secrets read_csv with
      | inr df =>
          (inr df, MkWorld (session_messages w) (Some (df, []))
                           (trace w ++ [Enter FLoadData]))
      | inl e =>
          (inr empty_frame,
           MkWorld (session_messages w)
                   (Some (empty_frame, [sheet_trouble_text e]))
                   (trace w ++ [Enter FLoadData; StError (sheet_trouble_text e)]))
      end
  end.
Proof.
  unfold load_data, fetched.
  destruct (data_cache w) as [[df shown] |]; [reflexivity |].
  unfold load_data_body, bind, try_except, lift, st_error, emit, ret, add_events.
  cbn [trace session_messages data_cache].
  destruct (secrets "SHEET_URL") as [e | url];
    cbn [trace session_messages data_cache].
  - rewrite <- app_assoc. cbn [app]. rewrite skipn_past. reflexivity.
  - destruct (read_csv url) as [e | df]; cbn [trace session_messages data_cache].
    + rewrite <- app_assoc. cbn [app]. rewrite skipn_past. reflexivity.
    + rewrite skipn_past. reflexivity.
Qed.

Lemma get_recommendations_empty
    (location budget craving : pyval) (food_data : DataFrame) (time_str : string)
    (w : World) :
  empty food_data = true ->
  compose location budget craving food_data time_str w =
  (inr unavailable_message, add_events w [Enter FGetRecommendations]).
Proof.
  intros He. unfold get_recommendations, bind, emit. rewrite He. reflexivity.
Qed.

(** With rows to offer and a craving that is no string, [craving.lower()]
    raises before any prompt is built. *)
Lemma get_recommendations_raises
    (location budget craving : pyval) (food_data : DataFrame) (time_str : string)
    (w : World) (e : exn) :
  empty food_data = false ->
  py_lower craving = inl e ->
  compose location budget craving food_data time_str w =
  (inl e, add_events w [Enter FGetRecommendations]).
Proof.
  intros He Hl. unfold get_recommendations, bind, emit, lift.
  rewrite He, Hl. reflexivity.
Qed.

(** With rows to offer and a string craving, one call of the model. *)
Lemma get_recommendations_run
    (location budget : pyval) (craving : string) (food_data : DataFrame)
    (time_str : string) (w : World) :
  empty food_data = false ->
  let instruction :=
    if Text.lower craving =? "anything" then popular_instruction
    else mood_instruction craving in
  let prompt :=
    recommendation_prompt (py_str py_repr location) (py_str py_repr budget) time_str
                          instruction (to_json food_data) in
  compose location budget (PStr craving) food_data time_str w =
  (inr (reply_or_apology generate_content (List.length (model_calls (trace w))) prompt),
   add_events w [Enter FGetRecommendations; Generate prompt]).
Proof.
  intros He instruction prompt.
  unfold get_recommendations, bind, emit, lift, try_except, call_model, ret,
    reply_or_apology.
  rewrite He. cbn [py_lower py_str].
  fold instruction. fold prompt.
  rewrite (calls_after_silent w [Enter FGetRecommendations] eq_refl).
  rewrite add_events_add. cbn [app].
  destruct (generate_content _ prompt) as [e | resp]; [reflexivity |].
  destruct (text resp) as [e | reply]; reflexivity.
Qed.

Lemma respond_clarifies (now : datetime) (user_info : pyval) (w : World) :
  no_usable_location user_info ->
  answer now user_info w = (inr clarification_message, w).
Proof.
  intros [Hf | (loc & Hg & Hl)]; unfold respond, has_location, bind, lift, ret.
  - rewrite Hf. reflexivity.
  - destruct (py_truthy user_info); [| reflexivity].
    rewrite Hg, Hl. reflexivity.
Qed.

(** A truthy value that is no [dict] has no [get]. *)
Lemma respond_raises (now : datetime) (user_info : pyval) (w : World) (e : exn) :
  py_truthy user_info = true ->
  py_get user_info "location" = inl e ->
  answer now user_info w = (inl e, w).
Proof.
  intros Ht Hg. unfold respond, has_location, bind, lift, ret.
  rewrite Ht, Hg. reflexivity.
Qed.

(** With a truthy location the [if] branch runs. *)
Lemma respond_with_location
    (now : datetime) (kv : list (string * pyval)) (location : pyval) (w : World) :
  dict_get kv "location" = Some location ->
  py_truthy location = true ->
  answer now (PDict kv) w =
  (food_data <- load ;;
   budget <- lift (py_getitem (PDict kv) "budget") ;;
   craving <- lift (py_getitem (PDict kv) "craving") ;;
   compose location budget craving food_data (current_time_str now)) w.
Proof.
  intros Hd Ht. unfold respond, has_location, bind, lift, ret.
  destruct kv as [| item kv']; [discriminate |].
  cbn [py_truthy py_get py_getitem]. rewrite Hd, Ht.
  destruct (load w) as [[e | df] w1]; [reflexivity |].
  destruct (dict_get (item :: kv') "budget"); [| reflexivity].
  destruct (dict_get (item :: kv') "craving"); [| reflexivity].
  destruct (compose _ _ _ _ _ w1) as [[e | r] w2]; reflexivity.
Qed.

(** The turn up to the [if]: the user message is kept and shown, and the
    extractor has run. *)
Lemma handle_prompt_run (now : datetime) (prompt : string) (w : World)
    (ms : list message) :
  session_messages w = Some ms ->
  let n := List.length (model_calls (trace w)) in
  handle now prompt w =
  (response_message <- answer now (extracted generate_content json_loads n prompt) ;;
   append_message (Message "assistant" response_message) ;;
   chat_markdown "assistant" response_message)
    (MkWorld (Some (ms ++ [Message "user" prompt])%list) (data_cache w)
             (trace w ++ ChatMarkdown "user" prompt
                :: extraction_events generate_content json_loads n prompt)).
Proof.
  intros Hm n. unfold handle_prompt.
  unfold bind at 1. unfold append_message at 1. rewrite Hm.
  unfold bind at 1. unfold chat_markdown at 1. unfold emit at 1.
  unfold bind at 1. rewrite extract_user_info_run.
  unfold add_events. cbn [trace session_messages data_cache].
  rewrite model_calls_app. cbn [model_calls]. rewrite app_nil_r.
  fold n. rewrite <- app_assoc. reflexivity.
Qed.

(** A turn that ends in the [else] branch. *)
Lemma handle_prompt_clarifies (now : datetime) (prompt : string) (w : World)
    (ms : list message) :
  session_messages w = Some ms ->
  let n := List.length (model_calls (trace w)) in
  no_usable_location (extracted generate_content json_loads n prompt) ->
  handle now prompt w =
  (inr tt,
   MkWorld (Some (ms ++ [Message "user" prompt;
                         Message "assistant" clarification_message])%list)
           (data_cache w)
           (trace w ++ ChatMarkdown "user" prompt
              :: extraction_events generate_content json_loads n prompt
              ++ [ChatMarkdown "assistant" clarification_message])).
Proof.
  intros Hm n Hn. rewrite (handle_prompt_run now prompt w ms Hm). fold n.
  unfold bind at 1. rewrite (respond_clarifies now _ _ Hn).
  unfold bind, append_message, chat_markdown, emit, add_events.
  cbn [trace session_messages data_cache].
  rewrite <- !app_assoc. reflexivity.
Qed.

(** C1: for every location, budget, craving and time text, on a table that
    is empty the composer returns the fixed message that the database is
    unavailable, and the model is not called. *)
Theorem C1_empty_dataset_unavailable
    (location budget craving : pyval) (food_data : DataFrame) (time_str : string)
    (w : World) :
  empty food_data = true ->
  let run := compose location budget craving food_data time_str w in
  fst run = inr unavailable_message /\
  model_calls (trace (snd run)) = model_calls (trace w) /\
  snd run = add_events w [Enter FGetRecommendations].
Proof.
  intros He run. subst run. rewrite (get_recommendations_empty _ _ _ _ _ _ He).
  cbn [fst snd]. split; [reflexivity |]. split; [| reflexivity].
  unfold add_events; cbn [trace].
  rewrite model_calls_app. cbn [model_calls]. apply app_nil_r.
Qed.

(** What the claims on the [else] branch share: the turn ends normally,
    the history gains the user message and the clarification, the model
    was called once, for the extraction, and the composer was not
    entered. *)
Lemma clarified_turn (now : datetime) (prompt : string) (w : World)
    (ms : list message) :
  session_messages w = Some ms ->
  no_usable_location
    (extracted generate_content json_loads (List.length (model_calls (trace w))) prompt) ->
  let run := handle now prompt w in
  fst run = inr tt /\
  session_messages (snd run)
    = Some (ms ++ [Message "user" prompt;
                   Message "assistant" clarification_message])%list /\
  invocations FGetRecommendations (trace (snd run))
    = invocations FGetRecommendations (trace w) /\
  model_calls (trace (snd run))
    = (model_calls (trace w) ++ [extraction_prompt prompt])%list /\
  last (trace (snd run)) (Enter FLoadData)
    = ChatMarkdown "assistant" clarification_message.
Proof.
  intros Hm Hn run. subst run.
  rewrite (handle_prompt_clarifies now prompt w ms Hm Hn). cbn [fst snd trace session_messages].
  split; [reflexivity |]. split; [reflexivity |]. split; [| split].
  - rewrite invocations_app.
    change (ChatMarkdown "user" prompt :: ?l) with ([ChatMarkdown "user" prompt] ++ l)%list.
    rewrite !invocations_app, extraction_events_composer. cbn. lia.
  - rewrite model_calls_app. cbn [model_calls].
    rewrite model_calls_app, extraction_events_calls. reflexivity.
  - rewrite app_comm_cons, app_assoc. apply last_last.
Qed.

(** C2: when the intent extracted from the utterance has a null location,
    the turn answers with the fixed request for the location and the
    composer is never invoked. *)
Theorem C2_null_location_asks_again (now : datetime) (prompt : string) (w : World)
    (ms : list message) :
  session_messages w = Some ms ->
  py_get (extracted generate_content json_loads
            (List.length (model_calls (trace w))) prompt) "location" = inr PNone ->
  let run := handle now prompt w in
  fst run = inr tt /\
  session_messages (snd run)
    = Some (ms ++ [Message "user" prompt;
                   Message "assistant" clarification_message])%list /\
  invocations FGetRecommendations (trace (snd run))
    = invocations FGetRecommendations (trace w) /\
  model_calls (trace (snd run))
    = (model_calls (trace w) ++ [extraction_prompt prompt])%list /\
  last (trace (snd run)) (Enter FLoadData)
    = ChatMarkdown "assistant" clarification_message.
Proof.
  intros Hm Hg. apply (clarified_turn now prompt w ms Hm).
  right. exists PNone. split; [exact Hg | reflexivity].
Qed.

(** C9: the gate tests the truth value of the location: when the extracted
    location is falsy without being null (the empty string, 0, false, an
    empty list...), the turn also answers with the request for the
    location and the composer is never invoked. *)
Theorem C9_falsy_location_asks_again (now : datetime) (prompt : string) (w : World)
    (ms : list message) (location : pyval) :
  session_messages w = Some ms ->
  py_get (extracted generate_content json_loads
            (List.length (model_calls (trace w))) prompt) "location" = inr location ->
  py_truthy location = false ->
  location <> PNone ->
  let run := handle now prompt w in
  fst run = inr tt /\
  session_messages (snd run)
    = Some (ms ++ [Message "user" prompt;
                   Message "assistant" clarification_message])%list /\
  invocations FGetRecommendations (trace (snd run))
    = invocations FGetRecommendations (trace w) /\
  model_calls (trace (snd run))
    = (model_calls (trace w) ++ [extraction_prompt prompt])%list /\
  last (trace (snd run)) (Enter FLoadData)
    = ChatMarkdown "assistant" clarification_message.
Proof.
  intros Hm Hg Hf _. apply (clarified_turn now prompt w ms Hm).
  right. exists location. split; assumption.
Qed.

(** C10: on a turn whose extraction fails, so that the extractor returns
    None, the assistant message appended to the history is exactly the
    request for the location, the same as for a null location, and the
    composer is not invoked. *)
Theorem C10_failed_extraction_asks_again (now : datetime) (prompt : string)
    (w : World) (ms : list message) :
  session_messages w = Some ms ->
  fst (extract prompt w) = inr PNone ->
  let run := handle now prompt w in
  fst run = inr tt /\
  session_messages (snd run)
    = Some (ms ++ [Message "user" prompt;
                   Message "assistant" clarification_message])%list /\
  invocations FGetRecommendations (trace (snd run))
    = invocations FGetRecommendations (trace w) /\
  model_calls (trace (snd run))
    = (model_calls (trace w) ++ [extraction_prompt prompt])%list /\
  last (trace (snd run)) (Enter FLoadData)
    = ChatMarkdown "assistant" clarification_message.
Proof.
  intros Hm Hx. rewrite extract_user_info_run in Hx. cbn [fst] in Hx.
  apply (clarified_turn now prompt w ms Hm).
  left. injection Hx as ->. reflexivity.
Qed.

(** A raised [try] block is one way to get there. *)
Lemma failed_extraction_returns_none (prompt : string) (w : World) (e : exn) :
  decoded generate_content json_loads
          (List.length (model_calls (trace w))) prompt = inl e ->
  extract prompt w =
  (inr PNone,
   add_events w [Enter FExtractUserInfo; Generate (extraction_prompt prompt);
                 StError (trouble_text e)]).
Proof.
  intros Hd. rewrite extract_user_info_run.
  unfold extracted, extraction_events. rewrite Hd. reflexivity.
Qed.

(** C3: whatever the fetch comes to (the secret is missing, [read_csv]
    raises, or a table arrives), [load_data] returns a table and does not
    raise; on a failure the table is the empty one. The same holds with
    the cache in front. *)
Theorem C3_load_data_returns_a_table (w : World) :
  (exists df w1,
      load_data_body secrets read_csv w = (inr df, w1) /\
      match fetched secrets read_csv with
      | inr table => df = table
      | inl _ => df = empty_frame /\ empty df = true
      end) /\
  (exists df w1,
      load w = (inr df, w1) /\
      match data_cache w, fetched secrets read_csv with
      | Some (cached, _), _ => df = cached
      | None, inr table => df = table
      | None, inl _ => df = empty_frame /\ empty df = true
      end).
Proof.
  split.
  - unfold load_data_body, fetched, bind, try_except, lift, st_error, emit, ret.
    destruct (secrets "SHEET_URL") as [e | url].
    + eexists _, _. split; [reflexivity |]. split; reflexivity.
    + destruct (read_csv url) as [e | table].
      * eexists _, _. split; [reflexivity |]. split; reflexivity.
      * eexists _, _. split; reflexivity.
  - rewrite load_data_run.
    destruct (data_cache w) as [[cached shown] |].
    + eexists _, _. split; reflexivity.
    + destruct (fetched secrets read_csv) as [e | table].
      * eexists _, _. split; [reflexivity |]. split; reflexivity.
      * eexists _, _. split; reflexivity.
Qed.

(** C4: the extractor removes the fence markers from the reply of the
    model, so that none is left, and hands the rest to the JSON decoder;
    when the decoder rejects it, and when the call of the model or the
    reading of its text raises, the extractor returns None. It never
    raises. *)
Theorem C4_extractor_decodes_or_returns_none (user_message : string) (w : World) :
  let n := List.length (model_calls (trace w)) in
  let run := extract user_message w in
  (exists v, fst run = inr v) /\
  (forall reply,
      generate_content n (extraction_prompt user_message) = inr (Response (inr reply)) ->
      let json_str :=
        Text.strip (Text.replace "```" "" (Text.replace "```json" "" (Text.strip reply))) in
      Text.occurs "```" json_str = false /\
      fst run = inr (match json_loads json_str with inr v => v | inl _ => PNone end)) /\
  (forall e,
      generate_content n (extraction_prompt user_message) = inl e ->
      fst run = inr PNone) /\
  (forall e,
      generate_content n (extraction_prompt user_message) = inr (Response (inl e)) ->
      fst run = inr PNone).
Proof.
  intros n run. subst run. rewrite extract_user_info_run. fold n. cbn [fst].
  unfold extracted, decoded.
  split; [eexists; reflexivity |].
  split; [| split].
  - intros reply Hg. split; [apply clean_reply_has_no_fence |].
    rewrite Hg. reflexivity.
  - intros e Hg. rewrite Hg. reflexivity.
  - intros e Hg. rewrite Hg. reflexivity.
Qed.

(** C5, as the code has it: with rows to offer and a string craving, the
    composer sends one prompt; its instruction is the one for popular
    dishes exactly when the craving, put in lower case, is "anything", and
    is otherwise the one that names the craving. *)
Theorem C5_instruction_follows_lowered_craving
    (location budget : pyval) (craving : string) (food_data : DataFrame)
    (time_str : string) (w : World) :
  empty food_data = false ->
  exists instruction,
    model_calls (trace (snd (compose location budget (PStr craving) food_data time_str w)))
    = (model_calls (trace w)
       ++ [recommendation_prompt (py_str py_repr location) (py_str py_repr budget)
             time_str instruction (to_json food_data)])%list /\
    (instruction = popular_instruction <-> Text.lower craving = "anything") /\
    (instruction <> popular_instruction -> instruction = mood_instruction craving).
Proof.
  intros He. rewrite (get_recommendations_run _ _ _ _ _ _ He). cbn [snd].
  eexists. split.
  - unfold add_events; cbn [trace]. rewrite model_calls_app. reflexivity.
  - destruct (String.eqb_spec (Text.lower craving) "anything") as [Heq | Hne].
    + split; [split; auto | intros H; contradiction H; reflexivity].
    + split; [split | reflexivity].
      * unfold mood_instruction, popular_instruction. discriminate.
      * intros H; contradiction.
Qed.

(** C7, as the code has it: for every utterance the prompt sent to the
    model carries the two rules (a budget of 100 INR and the craving
    "anything" when the user names none), and the intent returned is the
    value decoded from the reply; the code adds no default of its own. *)
Theorem C7_defaults_are_left_to_the_model
    (user_message : string) (w : World) (reply : string) (intent : pyval) :
  generate_content (List.length (model_calls (trace w)))
                   (extraction_prompt user_message) = inr (Response (inr reply)) ->
  json_loads (clean_reply reply) = inr intent ->
  let run := extract user_message w in
  fst run = inr intent /\
  model_calls (trace (snd run))
    = (model_calls (trace w) ++ [extraction_prompt user_message])%list /\
  (exists before after,
      extraction_prompt user_message = before ++ budget_rule ++ after) /\
  (exists before after,
      extraction_prompt user_message = before ++ craving_rule ++ after).
Proof.
  intros Hg Hj run. subst run. rewrite extract_user_info_run. cbn [fst snd].
  split; [| split; [| split]].
  - unfold extracted, decoded. rewrite Hg. cbn [text]. rewrite Hj. reflexivity.
  - unfold add_events; cbn [trace].
    rewrite model_calls_app, extraction_events_calls. reflexivity.
  - exists (Text.unlines [
        "";
        "    Extract location, budget (in INR), and food craving from the user's message.";
        "    Respond ONLY with a valid JSON object like {" ++ Text.dq ++ "location" ++ Text.dq
          ++ ": " ++ Text.dq ++ "..." ++ Text.dq ++ ", " ++ Text.dq ++ "budget" ++ Text.dq
          ++ ": ..., " ++ Text.dq ++ "craving" ++ Text.dq ++ ": " ++ Text.dq ++ "..."
          ++ Text.dq ++ "}.";
        "";
        "    RULES:";
        "    - The 'location' is mandatory. If you cannot find a location, set its value to null.";
        ""]).
    exists (Text.nl ++ Text.unlines [
        craving_rule;
        "";
        "    USER MESSAGE: " ++ Text.dq ++ user_message ++ Text.dq;
        "    "]).
    reflexivity.
  - exists (Text.unlines [
        "";
        "    Extract location, budget (in INR), and food craving from the user's message.";
        "    Respond ONLY with a valid JSON object like {" ++ Text.dq ++ "location" ++ Text.dq
          ++ ": " ++ Text.dq ++ "..." ++ Text.dq ++ ", " ++ Text.dq ++ "budget" ++ Text.dq
          ++ ": ..., " ++ Text.dq ++ "craving" ++ Text.dq ++ ": " ++ Text.dq ++ "..."
          ++ Text.dq ++ "}.";
        "";
        "    RULES:";
        "    - The 'location' is mandatory. If you cannot find a location, set its value to null.";
        budget_rule;
        ""]).
    exists (Text.nl ++ Text.unlines [
        "";
        "    USER MESSAGE: " ++ Text.dq ++ user_message ++ Text.dq;
        "    "]).
    reflexivity.
Qed.

(* ----------------------------------------------------------------- *)
(** *** What every turn does, whatever the model answers *)

(** [load_data] leaves the history alone and calls no model. *)
Lemma replay_is_silent (f : func) (shown : list string) :
  model_calls (map StError shown) = [] /\ invocations f (map StError shown) = 0.
Proof.
  induction shown as [| text shown [IH1 IH2]]; [split; reflexivity |].
  split; [exact IH1 |]. destruct f; exact IH2.
Qed.

Lemma load_data_effect (w : World) :
  exists df,
    fst (load w) = inr df /\
    session_messages (snd (load w)) = session_messages w /\
    model_calls (trace (snd (load w))) = model_calls (trace w) /\
    invocations FGetRecommendations (trace (snd (load w)))
      = invocations FGetRecommendations (trace w).
Proof.
  rewrite load_data_run.
  destruct (data_cache w) as [[cached shown] |].
  - exists cached. unfold add_events; cbn [fst snd session_messages trace].
    rewrite model_calls_app, invocations_app.
    destruct (replay_is_silent FGetRecommendations shown) as [-> ->].
    rewrite app_nil_r, Nat.add_0_r. repeat split; reflexivity.
  - destruct (fetched secrets read_csv) as [e | table];
      eexists; cbn [fst snd session_messages trace];
      rewrite model_calls_app, invocations_app; cbn;
      rewrite app_nil_r, Nat.add_0_r; repeat split; reflexivity.
Qed.

(** The composer leaves the history alone, is entered once and calls the
    model at most once. *)
Lemma get_recommendations_effect
    (location budget craving : pyval) (food_data : DataFrame) (time_str : string)
    (w : World) :
  let run := compose location budget craving food_data time_str w in
  exists calls,
    session_messages (snd run) = session_messages w /\
    data_cache (snd run) = data_cache w /\
    model_calls (trace (snd run)) = (model_calls (trace w) ++ calls)%list /\
    List.length calls <= 1 /\
    invocations FGetRecommendations (trace (snd run))
      = S (invocations FGetRecommendations (trace w)).
Proof.
  intros run. subst run.
  destruct (empty food_data) eqn:He.
  - rewrite (get_recommendations_empty _ _ _ _ _ _ He). exists [].
    unfold add_events; cbn [snd session_messages data_cache trace].
    rewrite model_calls_app, invocations_app. cbn. repeat split; auto; lia.
  - destruct (py_lower craving) as [e | lowered] eqn:Hl.
    + rewrite (get_recommendations_raises _ _ _ _ _ _ _ He Hl). exists [].
      unfold add_events; cbn [snd session_messages data_cache trace].
      rewrite model_calls_app, invocations_app. cbn. repeat split; auto; lia.
    + destruct craving; try discriminate.
      rewrite (get_recommendations_run _ _ _ _ _ _ He).
      eexists [_].
      unfold add_events; cbn [snd session_messages data_cache trace].
      rewrite model_calls_app, invocations_app. cbn. repeat split; auto; lia.
Qed.

(** The [if]/[else] leaves the history alone, calls the model at most
    once and enters the composer at most once. *)
Lemma respond_effect (now : datetime) (user_info : pyval) (w : World) :
  let run := answer now user_info w in
  session_messages (snd run) = session_messages w /\
  (exists calls,
      model_calls (trace (snd run)) = (model_calls (trace w) ++ calls)%list /\
      List.length calls <= 1) /\
  invocations FGetRecommendations (trace (snd run))
    <= S (invocations FGetRecommendations (trace w)).
Proof.
  intros run. subst run.
  assert (Hsame : forall r,
             answer now user_info w = (r, w) ->
             session_messages (snd (answer now user_info w)) = session_messages w /\
             (exists calls,
                 model_calls (trace (snd (answer now user_info w)))
                 = (model_calls (trace w) ++ calls)%list /\
                 List.length calls <= 1) /\
             invocations FGetRecommendations (trace (snd (answer now user_info w)))
             <= S (invocations FGetRecommendations (trace w))).
  { intros r ->. cbn [snd]. split; [reflexivity |]. split; [| lia].
    exists []. rewrite app_nil_r. split; [reflexivity | cbn; lia]. }
  destruct (py_truthy user_info) eqn:Ht.
  2:{ apply (Hsame (inr clarification_message)).
      apply respond_clarifies. left. exact Ht. }
  destruct (py_get user_info "location") as [e | location] eqn:Hg.
  { apply (Hsame (inl e)). apply respond_raises; assumption. }
  destruct (py_truthy location) eqn:Hl.
  2:{ apply (Hsame (inr clarification_message)).
      apply respond_clarifies. right. exists location. split; assumption. }
  clear Hsame.
  destruct user_info as [| | | | | | kv]; try discriminate.
  cbn [py_get] in Hg.
  destruct (dict_get kv "location") as [found |] eqn:Hd.
  2:{ injection Hg as <-. discriminate. }
  injection Hg as ->.
  rewrite (respond_with_location now kv location w Hd Hl).
  unfold bind, lift.
  destruct (load_data_effect w) as (df & Hr & Hm & Hc & Hi).
  destruct (load w) as [r w1]. cbn [fst snd] in *. subst r.
  destruct (py_getitem (PDict kv) "budget") as [e | budget].
  { cbn [snd]. rewrite Hm, Hc, Hi. split; [reflexivity |]. split; [| lia].
    exists []. rewrite app_nil_r. split; [reflexivity | cbn; lia]. }
  destruct (py_getitem (PDict kv) "craving") as [e | craving].
  { cbn [snd]. rewrite Hm, Hc, Hi. split; [reflexivity |]. split; [| lia].
    exists []. rewrite app_nil_r. split; [reflexivity | cbn; lia]. }
  destruct (get_recommendations_effect location budget craving df
              (current_time_str now) w1) as (calls & Gm & _ & Gc & Gl & Gi).
  rewrite Gm, Gc, Gi, Hm, Hc, Hi.
  split; [reflexivity |]. split; [| lia].
  exists calls. split; [reflexivity | exact Gl].
Qed.

(** Every turn, however it ends: the user message is appended; an
    assistant message follows it when the turn ends normally, and then it
    is the last thing shown; nothing else in the history changes. The
    model is called once for the extraction and at most once more. *)
Theorem turn_effect (now : datetime) (prompt : string) (w : World)
    (ms : list message) :
  session_messages w = Some ms ->
  let run := handle now prompt w in
  (exists more,
      session_messages (snd run) = Some (ms ++ Message "user" prompt :: more)%list /\
      match fst run with
      | inr _ =>
          exists response_message,
            more = [Message "assistant" response_message] /\
            last (trace (snd run)) (Enter FLoadData)
              = ChatMarkdown "assistant" response_message
      | inl _ => more = []
      end) /\
  (exists calls,
      model_calls (trace (snd run))
      = (model_calls (trace w) ++ extraction_prompt prompt :: calls)%list /\
      List.length calls <= 1) /\
  invocations FGetRecommendations (trace (snd run))
    <= S (invocations FGetRecommendations (trace w)).
Proof.
  intros Hm run. subst run.
  rewrite (handle_prompt_run now prompt w ms Hm).
  set (n := List.length (model_calls (trace w))).
  set (v := extracted generate_content json_loads n prompt).
  set (w3 := MkWorld _ _ _).
  destruct (respond_effect now v w3) as (Rm & (calls & Rc & Rl) & Ri).
  assert (Hc3 : model_calls (trace w3)
                = (model_calls (trace w) ++ [extraction_prompt prompt])%list).
  { subst w3. cbn [trace]. rewrite model_calls_app. cbn [model_calls].
    rewrite extraction_events_calls. reflexivity. }
  assert (Hi3 : invocations FGetRecommendations (trace w3)
                = invocations FGetRecommendations (trace w)).
  { subst w3. cbn [trace]. rewrite invocations_app.
    change (ChatMarkdown "user" prompt :: ?l) with ([ChatMarkdown "user" prompt] ++ l)%list.
    rewrite invocations_app, extraction_events_composer. cbn. lia. }
  unfold bind, append_message, chat_markdown, emit, add_events.
  destruct (answer now v w3) as [[e | r] w4]; cbn [fst snd] in *.
  - rewrite Rm, Rc, Hc3. subst w3. cbn [session_messages].
    split; [exists []; split; reflexivity |].
    split; [| lia].
    exists calls. rewrite <- app_assoc. split; [reflexivity | exact Rl].
  - rewrite Rm. subst w3. cbn [session_messages fst snd trace] in *.
    split.
    + exists [Message "assistant" r]. rewrite <- app_assoc. split; [reflexivity |].
      exists r. split; [reflexivity | apply last_last].
    + rewrite model_calls_app, invocations_app, Rc, Hc3. cbn.
      rewrite app_nil_r, <- app_assoc. split.
      * exists calls. split; [reflexivity | exact Rl].
      * lia.
Qed.

(** A [dict] with a truthy location and no budget: the turn stops at
    [user_info["budget"]] with a [KeyError], after the user message was
    appended and before any response message exists. *)
Lemma turn_raises_without_budget (now : datetime) (prompt : string) (w : World)
    (ms : list message) (kv : list (string * pyval)) (location : pyval) :
  session_messages w = Some ms ->
  extracted generate_content json_loads
            (List.length (model_calls (trace w))) prompt = PDict kv ->
  dict_get kv "location" = Some location ->
  py_truthy location = true ->
  dict_get kv "budget" = None ->
  let run := handle now prompt w in
  fst run = inl (Exn KeyError "'budget'") /\
  session_messages (snd run) = Some (ms ++ [Message "user" prompt])%list.
Proof.
  intros Hm Hx Hd Hl Hb run. subst run.
  rewrite (handle_prompt_run now prompt w ms Hm), Hx.
  set (w3 := MkWorld _ _ _).
  unfold bind.
  rewrite (respond_with_location now kv location w3 Hd Hl).
  unfold bind, lift. cbn [py_getitem]. rewrite Hb.
  destruct (load_data_effect w3) as (df & Hr & Hs & _).
  destruct (load w3) as [r w4]. cbn [fst snd] in *. subst r.
  cbn [fst snd]. rewrite Hs. split; reflexivity.
Qed.

(* ----------------------------------------------------------------- *)
(** *** The history over the runs of the script *)

Lemma display_history_run (w : World) (ms : list message) :
  session_messages w = Some ms ->
  display_history w
  = (inr tt, add_events w (map (fun m => ChatMarkdown (role m) (content m)) ms)).
Proof.
  intros Hm. unfold display_history. rewrite Hm. clear Hm.
  revert w. induction ms as [| m ms IH]; intros w.
  - cbn. rewrite add_events_nil. reflexivity.
  - cbn [for_each map]. unfold bind, chat_markdown, emit.
    rewrite IH, add_events_add. reflexivity.
Qed.

(** The history only grows: a run of the script keeps every message it
    found, in place, and adds its own after them. *)
Theorem history_is_append_only (now : datetime) (chat_input : option string)
    (w : World) (ms : list message) :
  session_messages w = Some ms ->
  exists more,
    session_messages (snd (script now chat_input w)) = Some (ms ++ more)%list.
Proof.
  intros Hm. unfold run_script, bind, init_history. rewrite Hm.
  rewrite (display_history_run w ms Hm).
  set (w1 := add_events w _).
  assert (Hm1 : session_messages w1 = Some ms) by exact Hm.
  destruct chat_input as [prompt |].
  2:{ exists []. cbn. rewrite app_nil_r. exact Hm. }
  destruct (negb (prompt =? "")).
  2:{ exists []. cbn. rewrite app_nil_r. exact Hm. }
  destruct (turn_effect now prompt w1 ms Hm1) as ((more & Hs & _) & _).
  exists (Message "user" prompt :: more). exact Hs.
Qed.

(** The first run puts the greeting first, and it stays first. *)
Theorem history_starts_with_greeting (now : datetime) (chat_input : option string)
    (w : World) :
  session_messages w = None \/ (exists rest, session_messages w = Some (greeting :: rest)) ->
  exists rest, session_messages (snd (script now chat_input w)) = Some (greeting :: rest).
Proof.
  intros [Hn | (rest & Hm)].
  - unfold run_script. unfold bind at 1. unfold init_history. rewrite Hn.
    set (w0 := MkWorld _ _ _).
    assert (H0 : session_messages w0 = Some [greeting]) by reflexivity.
    destruct (history_is_append_only now chat_input w0 [greeting] H0) as (more & Hs).
    unfold run_script, bind at 1, init_history in Hs. rewrite H0 in Hs.
    exists more. exact Hs.
  - destruct (history_is_append_only now chat_input w (greeting :: rest) Hm)
      as (more & Hs).
    exists (rest ++ more)%list. exact Hs.
Qed.

End Facts.

(* ================================================================= *)
(** ** Concrete turns *)

(** The scenario of the specification: fenced JSON from the model, then a
    recommendation. *)
Example cheesy_near_cst :
  let replies :=
    [Demo.reply ("```json" ++ Text.nl
                 ++ Demo.json "{'location': 'CST', 'budget': 200, 'craving': 'cheesy'}"
                 ++ Text.nl ++ "```");
     Demo.reply "**1. Cheese Pav Bhaji at Cannon**"] in
  let run := Demo.turn replies "near CST, 200, something cheesy" Demo.greeted in
  fst run = inr tt /\
  session_messages (snd run)
  = Some [greeting; Message "user" "near CST, 200, something cheesy";
          Message "assistant" "**1. Cheese Pav Bhaji at Cannon**"] /\
  List.length (model_calls (trace (snd run))) = 2.
Proof. vm_compute. repeat split; reflexivity. Qed.

(** The sheet cannot be fetched: [load_data] returns the empty table, keeps
    it, and the composer answers that the database is unavailable without
    calling the model. *)
Example unreachable_sheet :
  let run :=
    handle_prompt (Demo.scripted [Demo.reply Demo.cheesy_reply]) Json.loads
      Demo.secrets Demo.read_csv_down Demo.to_json Demo.py_repr Demo.half_past_one
      "near CST, 200, something cheesy" Demo.greeted in
  fst run = inr tt /\
  session_messages (snd run)
  = Some [greeting; Message "user" "near CST, 200, something cheesy";
          Message "assistant" unavailable_message] /\
  model_calls (trace (snd run)) = [extraction_prompt "near CST, 200, something cheesy"] /\
  option_map fst (data_cache (snd run)) = Some empty_frame.
Proof. vm_compute. repeat split; reflexivity. Qed.

(** Without the secret the lookup raises, and the table is empty as well. *)
Example missing_secret :
  fst (load_data Demo.no_secrets Demo.read_csv Demo.greeted) = inr empty_frame /\
  shown_errors (trace (snd (load_data Demo.no_secrets Demo.read_csv Demo.greeted)))
  = [sheet_trouble_text (Exn KeyError "'SHEET_URL'")].
Proof. vm_compute. split; reflexivity. Qed.

(** C6: two turns that are left unanswered. The model answers "I am near
    CST" with the object that has a location and nothing else: the turn
    ends with an uncaught KeyError at the lookup of the budget. The model
    answers with null for the craving: the turn ends with an uncaught
    AttributeError at [craving.lower()]. In both the user message was
    shown and no assistant message follows it. *)
Theorem C6_turn_is_left_unanswered :
  let run := Demo.turn Demo.location_only "I am near CST" Demo.greeted in
  let run' := Demo.turn Demo.null_craving "I am near CST" Demo.greeted in
  fst run = inl (Exn KeyError "'budget'") /\
  trace (snd run)
  = (trace Demo.greeted
     ++ [ChatMarkdown "user" "I am near CST"; Enter FExtractUserInfo;
         Generate (extraction_prompt "I am near CST"); Enter FLoadData])%list /\
  fst run' = inl (Exn AttributeError "'NoneType' object has no attribute 'lower'") /\
  trace (snd run')
  = (trace Demo.greeted
     ++ [ChatMarkdown "user" "I am near CST"; Enter FExtractUserInfo;
         Generate (extraction_prompt "I am near CST"); Enter FLoadData;
         Enter FGetRecommendations])%list.
Proof. vm_compute. repeat split; reflexivity. Qed.

(** C8: the same turn seen from the history, over three runs of the
    script: the page is opened, the turn above raises, and a further turn
    is answered. The raised turn has appended its user message and no
    assistant message, so two user messages follow each other. *)
Theorem C8_raised_turn_appends_only_the_user_message :
  let opened := snd (Demo.run [] None initial_world) in
  let raised := Demo.run Demo.location_only (Some "I am near CST") opened in
  let later :=
    Demo.run [Demo.reply "unused"; Demo.reply (Demo.json "{'location': null}")]
             (Some "I am hungry") (snd raised) in
  session_messages opened = Some [greeting] /\
  fst raised = inl (Exn KeyError "'budget'") /\
  session_messages (snd raised) = Some [greeting; Message "user" "I am near CST"] /\
  fst later = inr tt /\
  session_messages (snd later)
  = Some [greeting; Message "user" "I am near CST"; Message "user" "I am hungry";
          Message "assistant" clarification_message].
Proof. vm_compute. repeat split; reflexivity. Qed.

(** C5 as stated fails: the craving "Anything" is not the sentinel
    "anything", and yet the prompt carries the instruction for popular
    dishes and not the one that names the craving. *)
Lemma C5_capitalised_craving_counts_as_anything :
  let run :=
    get_recommendations (Demo.scripted [Demo.reply "**1. Vada Pav at Aram**"])
      Demo.to_json Demo.py_repr (PStr "CST") (PInt 100) (PStr "Anything")
      Demo.stalls "1:30 PM on a Friday" Demo.greeted in
  "Anything" <> "anything" /\
  empty Demo.stalls = false /\
  model_calls (trace (snd run))
  = [recommendation_prompt "CST" "100" "1:30 PM on a Friday" popular_instruction
       (Demo.to_json Demo.stalls)] /\
  popular_instruction <> mood_instruction "Anything".
Proof.
  split; [discriminate |]. split; [reflexivity |].
  split; [vm_compute; reflexivity | discriminate].
Qed.

(** C7 as stated fails: the utterance "I am near CST" names neither a
    budget nor a craving; the model answers null for both, and the intent
    returned has the budget None, not 100, and the craving None, not
    "anything". *)
Lemma C7_intent_is_what_the_model_answers :
  let model :=
    Demo.scripted
      [Demo.reply (Demo.json "{'location': 'CST', 'budget': null, 'craving': null}")] in
  let intent := PDict [("location", PStr "CST"); ("budget", PNone); ("craving", PNone)] in
  fst (extract_user_info model Json.loads "I am near CST" Demo.greeted) = inr intent /\
  py_get intent "budget" = inr PNone /\ PNone <> PInt 100 /\
  py_get intent "craving" = inr PNone /\ PNone <> PStr "anything".
Proof.
  split; [vm_compute; reflexivity |].
  repeat split; try reflexivity; discriminate.
Qed.

(* ================================================================= *)
(** ** The theorems at work *)

(** An empty sheet (a header and no rows) with a model that would answer. *)
Lemma C1_header_only_sheet :
  let header_only := Frame ["dish_name"; "price"] [] in
  empty header_only = true /\
  let run :=
    get_recommendations (Demo.scripted [Demo.reply "**1. Vada Pav at Aram**"])
      Demo.to_json Demo.py_repr (PStr "CST") (PInt 200) (PStr "cheesy")
      header_only "1:30 PM on a Friday" Demo.greeted in
  fst run = inr unavailable_message /\
  model_calls (trace (snd run)) = model_calls (trace Demo.greeted) /\
  snd run = add_events Demo.greeted [Enter FGetRecommendations].
Proof.
  split; [reflexivity |].
  apply (C1_empty_dataset_unavailable
           (Demo.scripted [Demo.reply "**1. Vada Pav at Aram**"])
           Demo.to_json Demo.py_repr).
  reflexivity.
Defined.

(** "I am hungry": the model finds no location. *)
Lemma C2_i_am_hungry :
  session_messages Demo.greeted = Some [greeting] /\
  py_get (extracted (Demo.scripted Demo.hungry_replies) Json.loads
            (List.length (model_calls (trace Demo.greeted))) "I am hungry")
         "location" = inr PNone /\
  let run := Demo.turn Demo.hungry_replies "I am hungry" Demo.greeted in
  fst run = inr tt /\
  session_messages (snd run)
    = Some ([greeting] ++ [Message "user" "I am hungry";
                           Message "assistant" clarification_message])%list /\
  invocations FGetRecommendations (trace (snd run))
    = invocations FGetRecommendations (trace Demo.greeted) /\
  model_calls (trace (snd run))
    = (model_calls (trace Demo.greeted) ++ [extraction_prompt "I am hungry"])%list /\
  last (trace (snd run)) (Enter FLoadData)
    = ChatMarkdown "assistant" clarification_message.
Proof.
  split; [reflexivity |]. split; [vm_compute; reflexivity |].
  apply (C2_null_location_asks_again
           (Demo.scripted Demo.hungry_replies) Json.loads Demo.secrets Demo.read_csv
           Demo.to_json Demo.py_repr Demo.half_past_one "I am hungry" Demo.greeted
           [greeting]).
  - reflexivity.
  - vm_compute; reflexivity.
Defined.

(** The model answers with the empty string for the location. *)
Lemma C9_blank_location :
  session_messages Demo.greeted = Some [greeting] /\
  py_get (extracted (Demo.scripted Demo.blank_replies) Json.loads
            (List.length (model_calls (trace Demo.greeted))) "something sweet")
         "location" = inr (PStr "") /\
  py_truthy (PStr "") = false /\
  PStr "" <> PNone /\
  let run := Demo.turn Demo.blank_replies "something sweet" Demo.greeted in
  fst run = inr tt /\
  session_messages (snd run)
    = Some ([greeting] ++ [Message "user" "something sweet";
                           Message "assistant" clarification_message])%list /\
  invocations FGetRecommendations (trace (snd run))
    = invocations FGetRecommendations (trace Demo.greeted) /\
  model_calls (trace (snd run))
    = (model_calls (trace Demo.greeted) ++ [extraction_prompt "something sweet"])%list /\
  last (trace (snd run)) (Enter FLoadData)
    = ChatMarkdown "assistant" clarification_message.
Proof.
  split; [reflexivity |]. split; [vm_compute; reflexivity |].
  split; [reflexivity |]. split; [discriminate |].
  apply (C9_falsy_location_asks_again
           (Demo.scripted Demo.blank_replies) Json.loads Demo.secrets Demo.read_csv
           Demo.to_json Demo.py_repr Demo.half_past_one "something sweet" Demo.greeted
           [greeting] (PStr "")).
  - reflexivity.
  - vm_compute; reflexivity.
  - reflexivity.
  - discriminate.
Defined.

(** The model answers in prose: the decoder rejects it. *)
Lemma C10_prose_reply :
  session_messages Demo.greeted = Some [greeting] /\
  fst (extract_user_info (Demo.scripted Demo.prose_replies) Json.loads "hello" Demo.greeted)
    = inr PNone /\
  let run := Demo.turn Demo.prose_replies "hello" Demo.greeted in
  fst run = inr tt /\
  session_messages (snd run)
    = Some ([greeting] ++ [Message "user" "hello";
                           Message "assistant" clarification_message])%list /\
  invocations FGetRecommendations (trace (snd run))
    = invocations FGetRecommendations (trace Demo.greeted) /\
  model_calls (trace (snd run))
    = (model_calls (trace Demo.greeted) ++ [extraction_prompt "hello"])%list /\
  last (trace (snd run)) (Enter FLoadData)
    = ChatMarkdown "assistant" clarification_message.
Proof.
  split; [reflexivity |]. split; [vm_compute; reflexivity |].
  apply (C10_failed_extraction_asks_again
           (Demo.scripted Demo.prose_replies) Json.loads Demo.secrets Demo.read_csv
           Demo.to_json Demo.py_repr Demo.half_past_one "hello" Demo.greeted
           [greeting]).
  - reflexivity.
  - vm_compute; reflexivity.
Defined.

(** A reply in a fence, a reply in prose, a failing call and a response
    whose text cannot be read. *)
Lemma C4_four_replies :
  let fenced := "```json" ++ Text.nl ++ Demo.json "{'location': 'Dadar'}" ++ Text.nl ++ "```" in
  let extract model :=
    fst (extract_user_info model Json.loads "near Dadar" Demo.greeted) in
  extract (Demo.scripted [Demo.reply fenced]) = inr (PDict [("location", PStr "Dadar")]) /\
  extract (Demo.scripted Demo.prose_replies) = inr PNone /\
  extract (Demo.scripted []) = inr PNone /\
  extract (Demo.scripted [inr (Response (inl Demo.quota_exceeded))]) = inr PNone.
Proof.
  intros fenced extract.
  pose proof (C4_extractor_decodes_or_returns_none
                (Demo.scripted [Demo.reply fenced]) Json.loads "near Dadar" Demo.greeted)
    as (_ & H1 & _).
  pose proof (C4_extractor_decodes_or_returns_none
                (Demo.scripted Demo.prose_replies) Json.loads "near Dadar" Demo.greeted)
    as (_ & H2 & _).
  pose proof (C4_extractor_decodes_or_returns_none
                (Demo.scripted []) Json.loads "near Dadar" Demo.greeted)
    as (_ & _ & H3 & _).
  pose proof (C4_extractor_decodes_or_returns_none
                (Demo.scripted [inr (Response (inl Demo.quota_exceeded))]) Json.loads
                "near Dadar" Demo.greeted)
    as (_ & _ & _ & H4).
  split; [exact (proj2 (H1 fenced eq_refl)) |].
  split; [exact (proj2 (H2 _ eq_refl)) |].
  split; [exact (H3 _ eq_refl) | exact (H4 _ eq_refl)].
Defined.

(** "Anything" and "cheesy" on the two stalls. *)
Lemma C5_two_cravings :
  empty Demo.stalls = false /\
  (exists instruction,
      model_calls (trace (snd (get_recommendations (Demo.scripted []) Demo.to_json
                                 Demo.py_repr (PStr "CST") (PInt 100) (PStr "Anything")
                                 Demo.stalls "1:30 PM on a Friday" Demo.greeted)))
      = (model_calls (trace Demo.greeted)
         ++ [recommendation_prompt (py_str Demo.py_repr (PStr "CST"))
               (py_str Demo.py_repr (PInt 100)) "1:30 PM on a Friday" instruction
               (Demo.to_json Demo.stalls)])%list /\
      (instruction = popular_instruction <-> Text.lower "Anything" = "anything") /\
      (instruction <> popular_instruction -> instruction = mood_instruction "Anything")).
Proof.
  split; [reflexivity |].
  apply (C5_instruction_follows_lowered_craving
           (Demo.scripted []) Demo.to_json Demo.py_repr (PStr "CST") (PInt 100)
           "Anything" Demo.stalls "1:30 PM on a Friday" Demo.greeted).
  reflexivity.
Defined.

(** The intent is the decoded reply. *)
Lemma C7_cheesy_intent :
  let intent := PDict [("location", PStr "CST"); ("budget", PInt 200);
                       ("craving", PStr "cheesy")] in
  Demo.scripted [Demo.reply Demo.cheesy_reply]
    (List.length (model_calls (trace Demo.greeted)))
    (extraction_prompt "near CST, 200, something cheesy")
  = inr (Response (inr Demo.cheesy_reply)) /\
  Json.loads (clean_reply Demo.cheesy_reply) = inr intent /\
  fst (extract_user_info (Demo.scripted [Demo.reply Demo.cheesy_reply]) Json.loads
         "near CST, 200, something cheesy" Demo.greeted) = inr intent.
Proof.
  intros intent.
  split; [reflexivity |]. split; [vm_compute; reflexivity |].
  refine (proj1 (C7_defaults_are_left_to_the_model
                   (Demo.scripted [Demo.reply Demo.cheesy_reply]) Json.loads
                   "near CST, 200, something cheesy" Demo.greeted Demo.cheesy_reply intent
                   _ _)).
  - reflexivity.
  - vm_compute; reflexivity.
Defined.

(* ================================================================= *)
(** ** What the cleaning of a reply leaves *)

Lemma str_app_nil_r (s : string) : s ++ "" = s.
Proof. induction s as [| c s IH]; [reflexivity |]. cbn. rewrite IH. reflexivity. Qed.

Lemma str_app_assoc (a b c : string) : (a ++ b) ++ c = a ++ b ++ c.
Proof. induction a as [| x a IH]; [reflexivity |]. cbn. rewrite IH. reflexivity. Qed.

Lemma bytes_app (a b : string) :
  Text.bytes (a ++ b) = (Text.bytes a ++ Text.bytes b)%list.
Proof.
  unfold Text.bytes. induction a as [| x a IH]; [reflexivity |].
  cbn. rewrite IH. reflexivity.
Qed.

Lemma bytes_bounded (s : string) : Forall (fun b => (b < 256)%N) (Text.bytes s).
Proof.
  unfold Text.bytes. induction s as [| c s IH]; [constructor |].
  cbn. constructor; [apply N_ascii_bounded | exact IH].
Qed.

Lemma bytes_of_bytes (l : list N) :
  Forall (fun b => (b < 256)%N) l -> Text.bytes (Text.of_bytes l) = l.
Proof.
  unfold Text.bytes, Text.of_bytes. induction 1 as [| b l Hb _ IH]; [reflexivity |].
  cbn. rewrite IH, N_ascii_embedding; [reflexivity | exact Hb].
Qed.

(* ----------------------------------------------------------------- *)
(** *** [strip] *)

Lemma starts_with_length (pat l : list N) :
  Text.starts_with pat l = true -> List.length pat <= List.length l.
Proof.
  revert l. induction pat as [| a pat IH]; intros l H; [cbn; lia |].
  destruct l as [| b l]; [discriminate |]. cbn in H.
  apply andb_true_iff in H. destruct H as [_ H]. apply IH in H. cbn. lia.
Qed.

Lemma starts_with_app (pat l more : list N) :
  Text.starts_with pat l = true -> Text.starts_with pat (l ++ more) = true.
Proof.
  revert l. induction pat as [| a pat IH]; intros l H; [reflexivity |].
  destruct l as [| b l]; [discriminate |]. cbn in *.
  apply andb_true_iff in H. destruct H as [Hab H].
  rewrite Hab. cbn. apply IH. exact H.
Qed.

Lemma head_length_le (pats : list (list N)) (l : list N) :
  Text.head_length pats l <= List.length l.
Proof.
  unfold Text.head_length.
  destruct (find (fun pat => Text.starts_with pat l) pats) as [pat |] eqn:Hf; [| lia].
  apply find_some in Hf. apply starts_with_length. apply Hf.
Qed.

(** With fuel for every byte, [drop_leading] stops where no pattern is
    at the head. *)
Lemma drop_leading_done (pats : list (list N)) (fuel : nat) (l : list N) :
  List.length l <= fuel ->
  Text.head_length pats (Text.drop_leading pats fuel l) = 0.
Proof.
  revert l. induction fuel as [| fuel IH]; intros l Hl.
  - destruct l; [| cbn in Hl; lia]. cbn.
    pose proof (head_length_le pats []) as H. cbn in H. lia.
  - cbn [Text.drop_leading].
    destruct (Text.head_length pats l) as [| k] eqn:Hk; [exact Hk |].
    apply IH. rewrite length_skipn. lia.
Qed.

Lemma drop_leading_stop (pats : list (list N)) (fuel : nat) (l : list N) :
  Text.head_length pats l = 0 -> Text.drop_leading pats fuel l = l.
Proof. intros H. destruct fuel; cbn; [| rewrite H]; reflexivity. Qed.

(** Where no pattern is at the head of a text, none is at the head of
    what the text starts with, the patterns being non-empty. *)
Lemma head_length_prefix (pats : list (list N)) (l more : list N) :
  Forall (fun pat => pat <> []) pats ->
  Text.head_length pats (l ++ more) = 0 -> Text.head_length pats l = 0.
Proof.
  intros Hne H. unfold Text.head_length in *.
  destruct (find (fun pat => Text.starts_with pat l) pats) as [pat |] eqn:Hf;
    [| reflexivity].
  apply find_some in Hf. destruct Hf as [Hin Hs].
  destruct (find (fun pat => Text.starts_with pat (l ++ more)) pats) as [pat' |] eqn:Hf'.
  - apply find_some in Hf'. destruct Hf' as [Hin' _].
    rewrite Forall_forall in Hne. specialize (Hne pat' Hin').
    destruct pat'; [contradiction Hne; reflexivity | discriminate].
  - apply (find_none _ _ Hf') in Hin. cbn in Hin.
    rewrite (starts_with_app pat l more Hs) in Hin. discriminate.
Qed.

Lemma whitespace_nonempty :
  Forall (fun pat => pat <> []) Text.whitespace /\
  Forall (fun pat => pat <> []) (map (@rev N) Text.whitespace).
Proof. split; repeat constructor; discriminate. Qed.

Lemma strip_bytes_infix (l : list N) :
  exists head tail,
    l = (head ++ Text.rstrip_bytes (Text.lstrip_bytes l) ++ tail)%list.
Proof.
  unfold Text.rstrip_bytes, Text.lstrip_bytes.
  destruct (drop_leading_suffix Text.whitespace (List.length l) l) as (head & Hh).
  set (m := Text.drop_leading Text.whitespace _ _) in *.
  destruct (drop_leading_suffix (map (@rev N) Text.whitespace) (List.length m) (rev m))
    as (tail & Ht).
  set (d := Text.drop_leading (map (@rev N) Text.whitespace) _ _) in *.
  exists head, (rev tail).
  rewrite <- rev_app_distr, <- Ht, rev_involutive. exact Hh.
Qed.

Lemma strip_bytes_idempotent (l : list N) :
  Text.rstrip_bytes (Text.lstrip_bytes (Text.rstrip_bytes (Text.lstrip_bytes l)))
  = Text.rstrip_bytes (Text.lstrip_bytes l).
Proof.
  destruct whitespace_nonempty as [Hws Hrws].
  unfold Text.lstrip_bytes at 2.
  set (m := Text.drop_leading Text.whitespace (List.length l) l).
  assert (Hm : Text.head_length Text.whitespace m = 0)
    by (apply drop_leading_done; lia).
  unfold Text.rstrip_bytes at 2.
  set (d := Text.drop_leading (map (@rev N) Text.whitespace) (List.length m) (rev m)).
  assert (Hd : Text.head_length (map (@rev N) Text.whitespace) d = 0)
    by (apply drop_leading_done; rewrite length_rev; lia).
  destruct (drop_leading_suffix (map (@rev N) Text.whitespace) (List.length m) (rev m))
    as (x & Hx).
  fold d in Hx.
  assert (Hp : m = (rev d ++ rev x)%list)
    by (rewrite <- rev_app_distr, <- Hx, rev_involutive; reflexivity).
  assert (Hl : Text.lstrip_bytes (rev d) = rev d).
  { unfold Text.lstrip_bytes. apply drop_leading_stop.
    apply (head_length_prefix Text.whitespace (rev d) (rev x) Hws).
    rewrite <- Hp. exact Hm. }
  rewrite Hl. unfold Text.rstrip_bytes. rewrite rev_involutive.
  rewrite (drop_leading_stop _ _ d Hd). reflexivity.
Qed.

Lemma bytes_strip (s : string) :
  Text.bytes (Text.strip s) = Text.rstrip_bytes (Text.lstrip_bytes (Text.bytes s)).
Proof.
  unfold Text.strip. apply bytes_of_bytes.
  destruct (strip_bytes_infix (Text.bytes s)) as (head & tail & Hs).
  pose proof (bytes_bounded s) as Hb. rewrite Hs in Hb.
  apply Forall_app in Hb. destruct Hb as [_ Hb].
  apply Forall_app in Hb. apply Hb.
Qed.

Lemma strip_idempotent (s : string) : Text.strip (Text.strip s) = Text.strip s.
Proof.
  unfold Text.strip at 1. rewrite bytes_strip, strip_bytes_idempotent. reflexivity.
Qed.

(** A text between two backquotes has nothing to strip. *)
Lemma strip_between_backquotes (s : string) :
  Text.strip (String "`" (s ++ "`")) = String "`" (s ++ "`").
Proof.
  unfold Text.strip.
  assert (Hb : Text.bytes (String "`" (s ++ "`"))
               = (96%N :: Text.bytes s ++ [96%N])%list)
    by (change (String "`" (s ++ "`")) with ("`" ++ s ++ "`");
        rewrite !bytes_app; reflexivity).
  rewrite <- (of_bytes_bytes (String "`" (s ++ "`"))) at 2. rewrite Hb.
  f_equal.
  assert (Hl : Text.lstrip_bytes (96%N :: Text.bytes s ++ [96%N])
               = (96%N :: Text.bytes s ++ [96%N])%list)
    by (unfold Text.lstrip_bytes; apply drop_leading_stop; reflexivity).
  rewrite Hl. unfold Text.rstrip_bytes.
  assert (Hr : rev (96%N :: Text.bytes s ++ [96%N])
               = (96%N :: rev (Text.bytes s) ++ [96%N])%list).
  { change (96%N :: Text.bytes s ++ [96%N])%list
      with ([96%N] ++ Text.bytes s ++ [96%N])%list.
    rewrite !rev_app_distr, <- app_assoc. reflexivity. }
  rewrite Hr, drop_leading_stop by reflexivity.
  rewrite <- Hr. apply rev_involutive.
Qed.

(* ----------------------------------------------------------------- *)
(** *** [replace] *)

Lemma prefix_nil (s : string) : prefix "" s = true.
Proof. destruct s; reflexivity. Qed.

Lemma prefix_shorter (pat more s : string) :
  prefix (pat ++ more) s = true -> prefix pat s = true.
Proof.
  revert s. induction pat as [| a pat IH]; intros s H; [apply prefix_nil |].
  destruct s as [| b s]; [discriminate |]. cbn in *.
  destruct (ascii_dec a b); [apply IH; exact H | discriminate].
Qed.

Lemma occurs_shorter (pat more s : string) :
  Text.occurs (pat ++ more) s = true -> Text.occurs pat s = true.
Proof.
  induction s as [| c s IH]; cbn [Text.occurs]; intros H;
    apply orb_true_iff in H; apply orb_true_iff; destruct H as [H | H].
  - left. apply (prefix_shorter pat more). exact H.
  - discriminate.
  - left. apply (prefix_shorter pat more). exact H.
  - right. apply IH. exact H.
Qed.

(** A pattern that does not occur is not replaced. *)
Lemma replace_absent (pat new s : string) :
  Text.occurs pat s = false -> Text.replace pat new s = s.
Proof.
  unfold Text.replace. induction s as [| c s IH]; intros H; [reflexivity |].
  cbn [Text.occurs] in H. apply orb_false_iff in H. destruct H as [Hp Ho].
  cbn [Text.replace_from]. rewrite Hp, (IH Ho). reflexivity.
Qed.

Lemma no_backquote_cons (c : ascii) (s : string) :
  Text.occurs "`" (String c s) = false -> c <> "`"%char /\ Text.occurs "`" s = false.
Proof.
  cbn [Text.occurs]. intros H. apply orb_false_iff in H. destruct H as [Hp Ho].
  split; [| exact Ho]. intros ->. cbn in Hp. rewrite prefix_nil in Hp. discriminate.
Qed.

Lemma prefix_backquote_miss (pat : string) (c : ascii) (s : string) :
  c <> "`"%char -> prefix (String "`" pat) (String c s) = false.
Proof.
  intros Hc. cbn [prefix].
  destruct (ascii_dec "`" c) as [<- |]; [contradiction Hc |]; reflexivity.
Qed.

(** Over a text without backquotes a pattern that starts with one finds
    nothing, and [replace] copies the text. *)
Lemma occurs_through (pat text tail : string) :
  Text.occurs "`" text = false ->
  Text.occurs (String "`" pat) (text ++ tail) = Text.occurs (String "`" pat) tail.
Proof.
  induction text as [| c text IH]; intros H; [reflexivity |].
  apply no_backquote_cons in H. destruct H as [Hc Ho].
  cbn [append Text.occurs]. rewrite (prefix_backquote_miss pat c _ Hc).
  apply IH. exact Ho.
Qed.

Lemma replace_through (pat new text tail : string) :
  Text.occurs "`" text = false ->
  Text.replace (String "`" pat) new (text ++ tail)
  = text ++ Text.replace (String "`" pat) new tail.
Proof.
  unfold Text.replace. induction text as [| c text IH]; intros H; [reflexivity |].
  apply no_backquote_cons in H. destruct H as [Hc Ho].
  cbn [append Text.replace_from]. rewrite (prefix_backquote_miss pat c _ Hc).
  rewrite (IH Ho). reflexivity.
Qed.

Lemma no_backquote_strip (s : string) :
  Text.occurs "`" s = false -> Text.occurs "`" (Text.strip s) = false.
Proof.
  intros H. destruct (Text.occurs "`" (Text.strip s)) eqn:Hs; [| reflexivity].
  apply occurs_strip in Hs. rewrite Hs in H. discriminate.
Qed.

(* ----------------------------------------------------------------- *)
(** *** [clean_reply] *)

(** Cleaning a cleaned reply changes nothing. *)
Theorem clean_reply_idempotent (reply : string) :
  clean_reply (clean_reply reply) = clean_reply reply.
Proof.
  pose proof (clean_reply_has_no_fence reply) as Hnone.
  assert (Hjson : Text.occurs "```json" (clean_reply reply) = false).
  { destruct (Text.occurs "```json" (clean_reply reply)) eqn:H; [| reflexivity].
    apply (occurs_shorter "```" "json") in H. rewrite H in Hnone. discriminate. }
  assert (Hs : Text.strip (clean_reply reply) = clean_reply reply)
    by (unfold clean_reply; apply strip_idempotent).
  unfold clean_reply at 1.
  rewrite Hs, (replace_absent _ _ _ Hjson), (replace_absent _ _ _ Hnone). exact Hs.
Qed.

(** A reply without backquotes comes out of the cleaning stripped of the
    blanks at its ends and otherwise as it is, and so does the same reply
    inside a fence, be the fence tagged [json] or bare and followed by a
    line break. *)
Theorem fenced_reply_is_unwrapped (reply : string) :
  Text.occurs "`" reply = false ->
  clean_reply reply = Text.strip reply /\
  clean_reply ("```json" ++ reply ++ "```") = Text.strip reply /\
  clean_reply ("```" ++ Text.nl ++ reply ++ "```") = Text.strip reply.
Proof.
  intros Hq. split; [| split]; unfold clean_reply.
  - pose proof (no_backquote_strip reply Hq) as Hs.
    rewrite <- (str_app_nil_r (Text.strip reply)) at 1.
    rewrite (replace_through "``json" "" _ "" Hs).
    change (Text.replace "```json" "" "") with "".
    rewrite (replace_through "``" "" _ "" Hs).
    change (Text.replace "```" "" "") with "".
    rewrite !str_app_nil_r. apply strip_idempotent.
  - assert (Hf : "```json" ++ reply ++ "```"
                 = String "`" (("``json" ++ reply ++ "``") ++ "`")).
    { rewrite !str_app_assoc. reflexivity. }
    rewrite Hf, strip_between_backquotes, <- Hf.
    assert (Hhit : Text.replace "```json" "" ("```json" ++ reply ++ "```")
                   = Text.replace "```json" "" (reply ++ "```")).
    { unfold Text.replace. cbn [append Text.replace_from String.length Nat.sub].
      assert (Hp : prefix "```json" ("```json" ++ reply ++ "```") = true)
        by (cbn; apply prefix_nil).
      cbn [append] in Hp. rewrite Hp. reflexivity. }
    rewrite Hhit, (replace_through "``json" "" reply "```" Hq).
    change (Text.replace "```json" "" "```") with "```".
    rewrite (replace_through "``" "" reply "```" Hq).
    change (Text.replace "```" "" "```") with "".
    rewrite str_app_nil_r. reflexivity.
  - assert (Hf : "```" ++ Text.nl ++ reply ++ "```"
                 = String "`" (("``" ++ Text.nl ++ reply ++ "``") ++ "`")).
    { rewrite !str_app_assoc. reflexivity. }
    rewrite Hf, strip_between_backquotes, <- Hf.
    assert (Hjson : Text.occurs "```json" ("```" ++ Text.nl ++ reply ++ "```") = false).
    { change ("```" ++ Text.nl ++ reply ++ "```")
        with (String "`" (String "`" (String "`" (Text.nl ++ reply ++ "```")))).
      change (Text.nl ++ reply ++ "```")
        with (String (ascii_of_nat 10) (reply ++ "```")).
      cbn [Text.occurs]. rewrite (occurs_through "``json" reply "```" Hq).
      reflexivity. }
    rewrite (replace_absent _ _ _ Hjson).
    assert (Hhit : Text.replace "```" "" ("```" ++ Text.nl ++ reply ++ "```")
                   = Text.replace "```" "" (Text.nl ++ reply ++ "```")).
    { unfold Text.replace. cbn [append Text.replace_from String.length Nat.sub].
      assert (Hp : prefix "```" ("```" ++ Text.nl ++ reply ++ "```") = true)
        by reflexivity.
      cbn [append] in Hp. rewrite Hp. reflexivity. }
    rewrite Hhit.
    change (Text.nl ++ reply ++ "```") with ((Text.nl ++ reply) ++ "```").
    assert (Hq' : Text.occurs "`" (Text.nl ++ reply) = false) by exact Hq.
    rewrite (replace_through "``" "" (Text.nl ++ reply) "```" Hq').
    change (Text.replace "```" "" "```") with "".
    rewrite str_app_nil_r. reflexivity.
Qed.

(* ================================================================= *)
(** ** Whole turns and whole sessions *)

Section SessionFacts.

Variable generate_content : nat -> string -> result response.
Variable json_loads : string -> result pyval.
Variable secrets : string -> result string.
Variable read_csv : string -> result DataFrame.
Variable to_json : DataFrame -> string.
Variable py_repr : pyval -> string.
Variable configure_model : string -> result unit.

#[local] Abbreviation extract := (extract_user_info generate_content json_loads).
#[local] Abbreviation compose := (get_recommendations generate_content to_json py_repr).
#[local] Abbreviation load := (load_data secrets read_csv).
#[local] Abbreviation table := (table_for secrets read_csv).
#[local] Abbreviation answer := (respond generate_content secrets read_csv to_json py_repr).
#[local] Abbreviation handle :=
  (handle_prompt generate_content json_loads secrets read_csv to_json py_repr).
#[local] Abbreviation script :=
  (run_script generate_content json_loads secrets read_csv to_json py_repr).
#[local] Abbreviation whole :=
  (run_app generate_content json_loads secrets read_csv to_json py_repr configure_model).
#[local] Abbreviation visit :=
  (session generate_content json_loads secrets read_csv to_json py_repr configure_model).
#[local] Abbreviation intent := (extracted generate_content json_loads).

(* ----------------------------------------------------------------- *)
(** *** The cache *)

Lemma cache_step_refl (w : World) : cache_step w w.
Proof.
  unfold cache_step. destruct (data_cache w); [split; reflexivity |].
  left. split; reflexivity.
Qed.

Lemma cache_step_trans (w1 w2 w3 : World) :
  cache_step w1 w2 -> cache_step w2 w3 -> cache_step w1 w3.
Proof.
  unfold cache_step. intros H12 H23.
  destruct (data_cache w1) as [c1 |].
  - destruct H12 as [Hc Hi]. rewrite Hc in H23. destruct H23 as [Hc' Hi'].
    split; [exact Hc' | lia].
  - destruct H12 as [[Hc Hi] | [Hc Hi]].
    + rewrite Hc in H23. destruct H23 as [[Hc' Hi'] | [Hc' Hi']].
      * left. split; [exact Hc' | lia].
      * right. split; [exact Hc' | lia].
    + destruct (data_cache w2) as [c2 |]; [| contradiction Hc; reflexivity].
      destruct H23 as [Hc' Hi']. right. split; [rewrite Hc'; discriminate | lia].
Qed.

(** Events other than the entry into [load_data] leave the cache alone. *)
Lemma cache_step_events (w w' : World) (evs : list event) :
  data_cache w' = data_cache w ->
  trace w' = (trace w ++ evs)%list ->
  invocations FLoadData evs = 0 ->
  cache_step w w'.
Proof.
  intros Hc Ht Hq. unfold cache_step. rewrite Hc, Ht, invocations_app, Hq.
  destruct (data_cache w); [split; [reflexivity | lia] |].
  left. split; [reflexivity | lia].
Qed.

Lemma load_data_returns (w : World) : fst (load w) = inr (table w).
Proof.
  rewrite load_data_run. unfold table_for.
  destruct (data_cache w) as [[df shown] |]; [reflexivity |].
  destruct (fetched secrets read_csv); reflexivity.
Qed.

Lemma load_data_cache_step (w : World) : cache_step w (snd (load w)).
Proof.
  rewrite load_data_run. unfold cache_step.
  destruct (data_cache w) as [[df shown] |] eqn:Hc.
  - cbn [snd]. unfold add_events; cbn [data_cache trace].
    rewrite invocations_app.
    destruct (replay_is_silent FLoadData shown) as [_ ->].
    split; [exact Hc | lia].
  - destruct (fetched secrets read_csv); cbn [snd data_cache trace];
      right; (split; [discriminate |]); rewrite invocations_app; cbn; lia.
Qed.

Lemma load_data_keeps_table (w : World) : table (snd (load w)) = table w.
Proof.
  rewrite load_data_run. unfold table_for.
  destruct (data_cache w) as [[df shown] |] eqn:Hc.
  - cbn [snd]. unfold add_events; cbn [data_cache]. rewrite Hc. reflexivity.
  - destruct (fetched secrets read_csv); reflexivity.
Qed.

Lemma get_recommendations_cache_step
    (location budget craving : pyval) (food_data : DataFrame) (time_str : string)
    (w : World) :
  cache_step w (snd (compose location budget craving food_data time_str w)).
Proof.
  destruct (empty food_data) eqn:He.
  - rewrite (get_recommendations_empty _ _ _ _ _ _ _ _ _ He).
    apply (cache_step_events _ _ [Enter FGetRecommendations]); reflexivity.
  - destruct (py_lower craving) as [e | lowered] eqn:Hl.
    + rewrite (get_recommendations_raises _ _ _ _ _ _ _ _ _ _ He Hl).
      apply (cache_step_events _ _ [Enter FGetRecommendations]); reflexivity.
    + destruct craving; try discriminate.
      rewrite (get_recommendations_run _ _ _ _ _ _ _ _ _ He). cbn [snd].
      eapply cache_step_events; reflexivity.
Qed.

(* ----------------------------------------------------------------- *)
(** *** The three ways through the [if]/[else] *)

Lemma respond_result (now : datetime) (user_info : pyval) (w : World) :
  (no_usable_location user_info /\
   answer now user_info w = (inr clarification_message, w)) \/
  (exists e,
      py_truthy user_info = true /\ py_get user_info "location" = inl e /\
      answer now user_info w = (inl e, w)) \/
  (exists kv location,
      user_info = PDict kv /\
      dict_get kv "location" = Some location /\ py_truthy location = true /\
      answer now user_info w =
      match dict_get kv "budget", dict_get kv "craving" with
      | None, _ => (inl (Exn KeyError "'budget'"), snd (load w))
      | Some _, None => (inl (Exn KeyError "'craving'"), snd (load w))
      | Some budget, Some craving =>
          compose location budget craving (table w) (current_time_str now)
                  (snd (load w))
      end).
Proof.
  destruct (py_truthy user_info) eqn:Ht.
  2:{ left. assert (Hn : no_usable_location user_info) by (left; exact Ht).
      split; [exact Hn | apply respond_clarifies; exact Hn]. }
  destruct (py_get user_info "location") as [e | location] eqn:Hg.
  { right. left. exists e. repeat split; try assumption.
    apply respond_raises; assumption. }
  destruct (py_truthy location) eqn:Hl.
  2:{ left. assert (Hn : no_usable_location user_info)
        by (right; exists location; split; assumption).
      split; [exact Hn | apply respond_clarifies; exact Hn]. }
  right. right.
  destruct user_info as [| | | | | | kv]; try discriminate.
  cbn [py_get] in Hg.
  destruct (dict_get kv "location") as [found |] eqn:Hd.
  2:{ injection Hg as <-. discriminate. }
  injection Hg as ->.
  exists kv, location. split; [reflexivity |]. split; [exact Hd |].
  split; [exact Hl |].
  rewrite (respond_with_location _ _ _ _ _ now kv location w Hd Hl).
  unfold bind, lift. cbn [py_getitem].
  pose proof (load_data_returns w) as Hr.
  destruct (load w) as [r w1]. cbn [fst snd] in *. subst r.
  destruct (dict_get kv "budget"); [| reflexivity].
  destruct (dict_get kv "craving"); reflexivity.
Qed.

Lemma respond_cache_step (now : datetime) (user_info : pyval) (w : World) :
  cache_step w (snd (answer now user_info w)).
Proof.
  destruct (respond_result now user_info w)
    as [[_ ->] | [(e & _ & _ & ->) | (kv & location & _ & _ & _ & ->)]];
    try apply cache_step_refl.
  pose proof (load_data_cache_step w) as Hl.
  destruct (dict_get kv "budget"); [| exact Hl].
  destruct (dict_get kv "craving"); [| exact Hl].
  eapply cache_step_trans; [exact Hl | apply get_recommendations_cache_step].
Qed.

(** The turn after the [if]/[else]: an exception ends it where it was
    raised; a response is appended and shown. *)
Lemma handle_prompt_result (now : datetime) (prompt : string) (w : World)
    (ms : list message) :
  session_messages w = Some ms ->
  let n := List.length (model_calls (trace w)) in
  let w3 :=
    MkWorld (Some (ms ++ [Message "user" prompt])%list) (data_cache w)
            (trace w ++ ChatMarkdown "user" prompt
               :: extraction_events generate_content json_loads n prompt) in
  handle now prompt w =
  match answer now (intent n prompt) w3 with
  | (inl e, w4) => (inl e, w4)
  | (inr response_message, w4) =>
      (inr tt,
       MkWorld (Some (ms ++ [Message "user" prompt;
                             Message "assistant" response_message])%list)
               (data_cache w4)
               (trace w4 ++ [ChatMarkdown "assistant" response_message]))
  end.
Proof.
  intros Hm n w3.
  rewrite (handle_prompt_run _ _ _ _ _ _ now prompt w ms Hm). fold n. fold w3.
  unfold bind at 1.
  destruct (respond_effect generate_content secrets read_csv to_json py_repr
              now (intent n prompt) w3) as (Rm & _).
  destruct (answer now (intent n prompt) w3) as [[e | r] w4]; [reflexivity |].
  cbn [snd] in Rm.
  unfold bind, append_message, chat_markdown, emit, add_events. rewrite Rm.
  cbn [session_messages data_cache trace w3]. rewrite <- app_assoc. reflexivity.
Qed.

Lemma turn_cache_step (now : datetime) (prompt : string) (w : World)
    (ms : list message) :
  session_messages w = Some ms ->
  cache_step w (snd (handle now prompt w)).
Proof.
  intros Hm. rewrite (handle_prompt_result now prompt w ms Hm).
  set (n := List.length (model_calls (trace w))).
  set (w3 := MkWorld _ _ _).
  assert (H3 : cache_step w w3).
  { apply (cache_step_events w w3
             (ChatMarkdown "user" prompt
                :: extraction_events generate_content json_loads n prompt));
      try reflexivity.
    unfold extraction_events, invocations. cbn [filter entered].
    destruct (decoded _ _ _ _); reflexivity. }
  pose proof (respond_cache_step now (intent n prompt) w3) as H4.
  destruct (answer now (intent n prompt) w3) as [[e | r] w4]; cbn [snd] in *.
  - eapply cache_step_trans; eassumption.
  - eapply cache_step_trans; [exact H3 |].
    eapply cache_step_trans; [exact H4 |].
    apply (cache_step_events _ _ [ChatMarkdown "assistant" r]); reflexivity.
Qed.

(** The history and the calls of the model when the [if]/[else] is
    reached. *)
Lemma before_respond (prompt : string) (w : World) (ms : list message) :
  let n := List.length (model_calls (trace w)) in
  let w3 :=
    MkWorld (Some (ms ++ [Message "user" prompt])%list) (data_cache w)
            (trace w ++ ChatMarkdown "user" prompt
               :: extraction_events generate_content json_loads n prompt) in
  table w3 = table w /\
  model_calls (trace (snd (load w3)))
  = (model_calls (trace w) ++ [extraction_prompt prompt])%list /\
  session_messages (snd (load w3)) = Some (ms ++ [Message "user" prompt])%list.
Proof.
  intros n w3. split; [reflexivity |].
  destruct (load_data_effect secrets read_csv w3) as (df & _ & Hs & Hc & _).
  rewrite Hc, Hs. split; [| reflexivity].
  cbn [trace w3]. rewrite model_calls_app. cbn [model_calls].
  rewrite extraction_events_calls. reflexivity.
Qed.

(** A turn runs to its end exactly on the answerable values; it then has
    appended one assistant message. *)
Theorem turn_ends_normally_iff_answerable (now : datetime) (prompt : string)
    (w : World) (ms : list message) :
  session_messages w = Some ms ->
  fst (handle now prompt w) = inr tt <->
  answerable (intent (List.length (model_calls (trace w))) prompt) (table w).
Proof.
  intros Hm. rewrite (handle_prompt_result now prompt w ms Hm).
  set (n := List.length (model_calls (trace w))).
  set (w3 := MkWorld _ _ _).
  set (v := intent n prompt).
  assert (Htab : table w3 = table w) by reflexivity.
  assert (Hok : forall r w4, answer now v w3 = (inr r, w4) ->
                 (fst (match answer now v w3 with
                       | (inl e, w5) => (inl e, w5)
                       | (inr r', w5) =>
                           (inr tt,
                            MkWorld (Some (ms ++ [Message "user" prompt;
                                                  Message "assistant" r'])%list)
                                    (data_cache w5)
                                    (trace w5 ++ [ChatMarkdown "assistant" r']))
                       end) = inr tt)) by (intros r w4 ->; reflexivity).
  assert (Hko : forall e w4, answer now v w3 = (inl e, w4) ->
                 ~ (fst (match answer now v w3 with
                         | (inl e', w5) => (inl e', w5)
                         | (inr r', w5) =>
                             (inr tt,
                              MkWorld (Some (ms ++ [Message "user" prompt;
                                                    Message "assistant" r'])%list)
                                      (data_cache w5)
                                      (trace w5 ++ [ChatMarkdown "assistant" r']))
                         end) = inr tt)) by (intros e w4 ->; discriminate).
  destruct (respond_result now v w3)
    as [[Hn Hr] | [(e & Ht & Hg & Hr) | (kv & location & Hv & Hd & Hl & Hr)]].
  - split; [intros _; left; exact Hn | intros _; exact (Hok _ _ Hr)].
  - split; [intros H; contradiction (Hko _ _ Hr H) |].
    intros [[Hf | (loc & Hg' & _)] | (kv & loc & b & c & Hv & _)].
    + rewrite Hf in Ht. discriminate.
    + rewrite Hg' in Hg. discriminate.
    + rewrite Hv in Hg. discriminate.
  - assert (Hno : ~ no_usable_location v).
    { rewrite Hv. intros [Hf | (loc & Hg & Hf)].
      - destruct kv; discriminate.
      - cbn [py_get] in Hg. rewrite Hd in Hg. injection Hg as <-.
        rewrite Hl in Hf. discriminate. }
    rewrite Htab in Hr.
    destruct (dict_get kv "budget") as [budget |] eqn:Hb.
    2:{ split; [intros H; contradiction (Hko _ _ Hr H) |].
        intros [Hn | (kv' & loc & b & c & Hv' & _ & _ & Hb' & _)];
          [contradiction |].
        rewrite Hv in Hv'. injection Hv' as <-. rewrite Hb in Hb'. discriminate. }
    destruct (dict_get kv "craving") as [craving |] eqn:Hc.
    2:{ split; [intros H; contradiction (Hko _ _ Hr H) |].
        intros [Hn | (kv' & loc & b & c & Hv' & _ & _ & _ & Hc' & _)];
          [contradiction |].
        rewrite Hv in Hv'. injection Hv' as <-. rewrite Hc in Hc'. discriminate. }
    destruct (empty (table w)) eqn:He.
    { rewrite (get_recommendations_empty _ _ _ _ _ _ _ _ _ He) in Hr.
      split; [intros _ | intros _; exact (Hok _ _ Hr)].
      right. exists kv, location, budget, craving.
      repeat split; try assumption. left. exact He. }
    destruct (py_lower craving) as [e | lowered] eqn:Hlow.
    + rewrite (get_recommendations_raises _ _ _ _ _ _ _ _ _ _ He Hlow) in Hr.
      split; [intros H; contradiction (Hko _ _ Hr H) |].
      intros [Hn | (kv' & loc & b & c & Hv' & _ & _ & _ & Hc' & [He' | (text & Hs)])];
        [contradiction | |].
      * rewrite He in He'. discriminate.
      * rewrite Hv in Hv'. injection Hv' as <-. rewrite Hc in Hc'.
        injection Hc' as <-. rewrite Hs in Hlow. discriminate.
    + destruct craving; try discriminate.
      rewrite (get_recommendations_run _ _ _ _ _ _ _ _ _ He) in Hr.
      split; [intros _ | intros _; exact (Hok _ _ Hr)].
      right. exists kv, location, budget, (PStr s).
      repeat split; try assumption. right. exists s. reflexivity.
Qed.

Lemma py_get_raises (v : pyval) (key : string) (e : exn) :
  py_get v key = inl e ->
  e = Exn AttributeError ("'" ++ type_name v ++ "' object has no attribute 'get'").
Proof. destruct v; cbn; intros H; try discriminate; injection H as <-; reflexivity. Qed.

Lemma py_lower_raises (v : pyval) (e : exn) :
  py_lower v = inl e ->
  e = Exn AttributeError ("'" ++ type_name v ++ "' object has no attribute 'lower'").
Proof. destruct v; cbn; intros H; try discriminate; injection H as <-; reflexivity. Qed.

(** The exceptions that escape a turn: a KeyError for a missing budget or
    craving, or an AttributeError from [user_info.get] or
    [craving.lower]. The history then ends with the user message. *)
Theorem turn_raises_only_key_or_attribute_errors (now : datetime)
    (prompt : string) (w : World) (ms : list message) (e : exn) :
  session_messages w = Some ms ->
  fst (handle now prompt w) = inl e ->
  (e = Exn KeyError "'budget'" \/ e = Exn KeyError "'craving'" \/
   (exists v, e = Exn AttributeError
                  ("'" ++ type_name v ++ "' object has no attribute 'get'")) \/
   (exists v, e = Exn AttributeError
                  ("'" ++ type_name v ++ "' object has no attribute 'lower'"))) /\
  session_messages (snd (handle now prompt w))
  = Some (ms ++ [Message "user" prompt])%list.
Proof.
  intros Hm He. split.
  - rewrite (handle_prompt_result now prompt w ms Hm) in He.
    set (n := List.length (model_calls (trace w))) in *.
    set (w3 := MkWorld _ _ _) in *.
    set (v := intent n prompt) in *.
    destruct (respond_result now v w3)
      as [[_ Hr] | [(e' & _ & Hg & Hr) | (kv & location & _ & _ & _ & Hr)]];
      rewrite Hr in He.
    + discriminate.
    + cbn in He. injection He as <-. right. right. left. exists v.
      apply py_get_raises with (key := "location"). exact Hg.
    + destruct (dict_get kv "budget") as [budget |].
      2:{ cbn in He. injection He as <-. left. reflexivity. }
      destruct (dict_get kv "craving") as [craving |].
      2:{ cbn in He. injection He as <-. right. left. reflexivity. }
      destruct (empty (table w3)) eqn:Hem.
      { rewrite (get_recommendations_empty _ _ _ _ _ _ _ _ _ Hem) in He.
        discriminate. }
      destruct (py_lower craving) as [e' | lowered] eqn:Hlow.
      * rewrite (get_recommendations_raises _ _ _ _ _ _ _ _ _ _ Hem Hlow) in He.
        cbn in He. injection He as <-. right. right. right. exists craving.
        apply py_lower_raises. exact Hlow.
      * destruct craving; try discriminate.
        rewrite (get_recommendations_run _ _ _ _ _ _ _ _ _ Hem) in He.
        discriminate.
  - destruct (turn_effect generate_content json_loads secrets read_csv to_json
                py_repr now prompt w ms Hm) as ((more & Hs & Hmore) & _).
    rewrite He in Hmore. rewrite Hs, Hmore. reflexivity.
Qed.

(** A full intent on a table with rows: the model is asked twice, for the
    extraction and for the recommendation, and what it answers the second
    time is the assistant message, as it is; when that call raises, the
    assistant message is the apology with the text of the exception. *)
Theorem turn_with_full_intent (now : datetime) (prompt : string) (w : World)
    (ms : list message) (kv : list (string * pyval)) (location budget : pyval)
    (craving : string) :
  session_messages w = Some ms ->
  intent (List.length (model_calls (trace w))) prompt = PDict kv ->
  dict_get kv "location" = Some location ->
  py_truthy location = true ->
  dict_get kv "budget" = Some budget ->
  dict_get kv "craving" = Some (PStr craving) ->
  empty (table w) = false ->
  let asked :=
    recommendation_prompt (py_str py_repr location) (py_str py_repr budget)
      (current_time_str now)
      (if Text.lower craving =? "anything" then popular_instruction
       else mood_instruction craving)
      (to_json (table w)) in
  let answered := generate_content (S (List.length (model_calls (trace w)))) asked in
  let run := handle now prompt w in
  exists response_message,
    fst run = inr tt /\
    session_messages (snd run)
    = Some (ms ++ [Message "user" prompt;
                   Message "assistant" response_message])%list /\
    model_calls (trace (snd run))
    = (model_calls (trace w) ++ [extraction_prompt prompt; asked])%list /\
    match answered with
    | inr (Response (inr reply)) => response_message = reply
    | inr (Response (inl e)) => response_message = sorry_boss_text e
    | inl e => response_message = sorry_boss_text e
    end.
Proof.
  intros Hm Hx Hd Hl Hb Hc He asked answered run. subst run.
  rewrite (handle_prompt_result now prompt w ms Hm), Hx.
  set (n := List.length (model_calls (trace w))) in *.
  set (w3 := MkWorld _ _ _).
  destruct (before_respond prompt w ms) as (Htab & Hcalls & Hs).
  fold n in Htab, Hcalls, Hs. fold w3 in Htab, Hcalls, Hs.
  destruct (respond_result now (PDict kv) w3)
    as [[Hn _] | [(e & _ & Hg & _) | (kv' & loc & Hv & Hd' & _ & Hr)]].
  - exfalso. destruct Hn as [Hf | (loc & Hg & Hf)].
    + destruct kv; discriminate.
    + cbn [py_get] in Hg. rewrite Hd in Hg. injection Hg as <-.
      rewrite Hl in Hf. discriminate.
  - discriminate.
  - injection Hv as <-. rewrite Hd in Hd'. injection Hd' as <-.
    rewrite Hb, Hc, Htab in Hr.
    rewrite (get_recommendations_run _ _ _ _ _ _ _ _ _ He) in Hr.
    rewrite Hcalls, length_app, Nat.add_comm in Hr. cbn [List.length plus] in Hr.
    fold asked in Hr. rewrite Hr.
    exists (reply_or_apology generate_content (S n) asked).
    unfold add_events. cbn [fst snd data_cache trace session_messages].
    split; [reflexivity |]. split; [reflexivity |]. split.
    + rewrite !model_calls_app, Hcalls. cbn [model_calls].
      rewrite app_nil_r, <- app_assoc. reflexivity.
    + unfold reply_or_apology. fold answered.
      destruct answered as [e | [[e | reply]]]; reflexivity.
Qed.

(** A full intent on an empty table, whatever the craving is: the
    assistant message is the notice that the database is unavailable, and
    the model was asked for the extraction only. *)
Theorem turn_on_empty_table (now : datetime) (prompt : string) (w : World)
    (ms : list message) (kv : list (string * pyval)) (location budget craving : pyval) :
  session_messages w = Some ms ->
  intent (List.length (model_calls (trace w))) prompt = PDict kv ->
  dict_get kv "location" = Some location ->
  py_truthy location = true ->
  dict_get kv "budget" = Some budget ->
  dict_get kv "craving" = Some craving ->
  empty (table w) = true ->
  let run := handle now prompt w in
  fst run = inr tt /\
  session_messages (snd run)
  = Some (ms ++ [Message "user" prompt;
                 Message "assistant" unavailable_message])%list /\
  model_calls (trace (snd run))
  = (model_calls (trace w) ++ [extraction_prompt prompt])%list.
Proof.
  intros Hm Hx Hd Hl Hb Hc He run. subst run.
  rewrite (handle_prompt_result now prompt w ms Hm), Hx.
  set (n := List.length (model_calls (trace w))) in *.
  set (w3 := MkWorld _ _ _).
  destruct (before_respond prompt w ms) as (Htab & Hcalls & Hs).
  fold n in Htab, Hcalls, Hs. fold w3 in Htab, Hcalls, Hs.
  destruct (respond_result now (PDict kv) w3)
    as [[Hn _] | [(e & _ & Hg & _) | (kv' & loc & Hv & Hd' & _ & Hr)]].
  - exfalso. destruct Hn as [Hf | (loc & Hg & Hf)].
    + destruct kv; discriminate.
    + cbn [py_get] in Hg. rewrite Hd in Hg. injection Hg as <-.
      rewrite Hl in Hf. discriminate.
  - discriminate.
  - injection Hv as <-. rewrite Hd in Hd'. injection Hd' as <-.
    rewrite Hb, Hc, Htab in Hr.
    rewrite (get_recommendations_empty _ _ _ _ _ _ _ _ _ He) in Hr.
    rewrite Hr. unfold add_events. cbn [fst snd data_cache trace session_messages].
    split; [reflexivity |]. split; [reflexivity |].
    rewrite !model_calls_app, Hcalls. cbn [model_calls].
    rewrite !app_nil_r. reflexivity.
Qed.

(* ----------------------------------------------------------------- *)
(** *** One run of the script *)

Lemma display_is_silent (f : func) (ms : list message) :
  model_calls (map (fun m => ChatMarkdown (role m) (content m)) ms) = [] /\
  invocations f (map (fun m => ChatMarkdown (role m) (content m)) ms) = 0.
Proof.
  induction ms as [| m ms [IH1 IH2]]; [split; reflexivity |].
  split; [exact IH1 |]. destruct f; exact IH2.
Qed.

(** A run up to the chat input: the history is there, if only with the
    greeting, and was shown. *)
Lemma run_script_run (now : datetime) (chat_input : option string) (w : World) :
  let start :=
    match session_messages w with Some ms => ms | None => [greeting] end in
  let w1 :=
    MkWorld (Some start) (data_cache w)
            (trace w ++ map (fun m => ChatMarkdown (role m) (content m)) start) in
  script now chat_input w =
  match chat_input with
  | Some prompt => if negb (prompt =? "") then handle now prompt w1 else (inr tt, w1)
  | None => (inr tt, w1)
  end.
Proof.
  intros start w1. unfold run_script, bind, init_history.
  assert (Hd : forall w0, session_messages w0 = Some start ->
                 display_history w0
                 = (inr tt, add_events w0
                              (map (fun m => ChatMarkdown (role m) (content m)) start)))
    by (intros w0 H0; apply display_history_run; exact H0).
  subst start w1.
  destruct (session_messages w) as [ms |] eqn:Hs.
  - rewrite (Hd w Hs). unfold add_events. rewrite Hs.
    destruct chat_input as [prompt |]; [| reflexivity].
    destruct (negb (prompt =? "")); reflexivity.
  - rewrite (Hd (MkWorld (Some [greeting]) (data_cache w) (trace w)) eq_refl).
    unfold add_events. cbn [session_messages data_cache trace].
    destruct chat_input as [prompt |]; [| reflexivity].
    destruct (negb (prompt =? "")); reflexivity.
Qed.

(** What a run adds: the submitted prompt as a user message and at most
    one assistant message; one or two calls of the model for a submitted
    prompt and none without; the cache used as [cache_step] says. *)
Lemma run_script_summary (now : datetime) (chat_input : option string) (w : World) :
  let start :=
    match session_messages w with Some ms => ms | None => [greeting] end in
  let w' := snd (script now chat_input w) in
  (exists more,
      session_messages w' = Some (start ++ more)%list /\
      said_by "user" more = submitted_prompt chat_input /\
      List.length (said_by "assistant" more)
        <= List.length (submitted_prompt chat_input)) /\
  (exists calls,
      model_calls (trace w') = (model_calls (trace w) ++ calls)%list /\
      List.length (submitted_prompt chat_input) <= List.length calls /\
      List.length calls <= 2 * List.length (submitted_prompt chat_input)) /\
  cache_step w w'.
Proof.
  intros start w'. subst w'. rewrite run_script_run. fold start.
  set (shown := map (fun m => ChatMarkdown (role m) (content m)) start).
  set (w1 := MkWorld _ _ _).
  destruct (display_is_silent FLoadData start) as [Hsil Hq]. fold shown in Hsil, Hq.
  assert (Hm1 : session_messages w1 = Some start) by reflexivity.
  assert (Hcalls1 : model_calls (trace w1) = model_calls (trace w)).
  { subst w1. cbn [trace]. rewrite model_calls_app, Hsil, app_nil_r. reflexivity. }
  assert (Hstep1 : cache_step w w1)
    by (apply (cache_step_events w w1 shown); [reflexivity | reflexivity | exact Hq]).
  assert (Hidle : submitted_prompt chat_input = [] ->
             (exists more,
                 session_messages w1 = Some (start ++ more)%list /\
                 said_by "user" more = submitted_prompt chat_input /\
                 List.length (said_by "assistant" more)
                   <= List.length (submitted_prompt chat_input)) /\
             (exists calls,
                 model_calls (trace w1) = (model_calls (trace w) ++ calls)%list /\
                 List.length (submitted_prompt chat_input) <= List.length calls /\
                 List.length calls <= 2 * List.length (submitted_prompt chat_input)) /\
             cache_step w w1).
  { intros Hsub. rewrite Hsub. split; [| split; [| exact Hstep1]].
    - exists []. rewrite app_nil_r. split; [exact Hm1 | split; [reflexivity | cbn; lia]].
    - exists []. rewrite app_nil_r. split; [exact Hcalls1 | cbn; lia]. }
  destruct chat_input as [prompt |]; [| apply Hidle; reflexivity].
  cbn [submitted_prompt] in *.
  destruct (negb (prompt =? "")); [| apply Hidle; reflexivity].
  clear Hidle.
  destruct (turn_effect generate_content json_loads secrets read_csv to_json
              py_repr now prompt w1 start Hm1)
    as ((more & Hs & Hmore) & (calls & Hcalls & Hlen) & _).
  split; [| split].
  - exists (Message "user" prompt :: more). split; [exact Hs |].
    destruct (fst (handle now prompt w1)).
    + subst more. split; [reflexivity | cbn; lia].
    + destruct Hmore as (r & -> & _). split; [reflexivity | cbn; lia].
  - exists (extraction_prompt prompt :: calls). rewrite Hcalls, Hcalls1.
    split; [reflexivity | cbn; lia].
  - eapply cache_step_trans; [exact Hstep1 |].
    apply (turn_cache_step now prompt w1 start Hm1).
Qed.

(** The configuration block goes one of two ways, the same on every run. *)
Lemma configure_result (w : World) :
  (configured secrets configure_model /\
   configure secrets configure_model w = (inr true, w)) \/
  (~ configured secrets configure_model /\
   configure secrets configure_model w
   = (inr false, add_events w [StError configuration_error_text])).
Proof.
  unfold configure, configured, bind, try_except, lift, st_error, emit, ret.
  destruct (secrets "GEMINI_API_KEY") as [e | api_key] eqn:Hk.
  - right. split; [| reflexivity]. intros (k & Hk' & _). discriminate.
  - destruct (configure_model api_key) as [e | []] eqn:Hc.
    + right. split; [| reflexivity]. intros (k & Hk' & Hc').
      injection Hk' as <-. rewrite Hc in Hc'. discriminate.
    + left. split; [exists api_key; split; [reflexivity | exact Hc] | reflexivity].
Qed.

Lemma app_configured (now : datetime) (chat_input : option string) (w : World) :
  configured secrets configure_model ->
  whole now chat_input w = script now chat_input w.
Proof.
  intros Hc. unfold run_app, bind.
  destruct (configure_result w) as [[_ ->] | [Hn _]]; [reflexivity | contradiction].
Qed.

Lemma app_unconfigured (now : datetime) (chat_input : option string) (w : World) :
  ~ configured secrets configure_model ->
  whole now chat_input w = (inr tt, add_events w [StError configuration_error_text]).
Proof.
  intros Hn. unfold run_app, bind.
  destruct (configure_result w) as [[Hc _] | [_ ->]]; [contradiction | reflexivity].
Qed.

(* ----------------------------------------------------------------- *)
(** *** Sessions *)

Lemma said_by_app (who : string) (a b : list message) :
  said_by who (a ++ b) = (said_by who a ++ said_by who b)%list.
Proof. unfold said_by. rewrite filter_app, map_app. reflexivity. Qed.

Lemma session_app (runs later : list (datetime * option string)) (w : World) :
  visit (runs ++ later) w = visit later (visit runs w).
Proof.
  revert w. induction runs as [| [now chat_input] runs IH]; intros w; [reflexivity |].
  cbn [session List.app]. apply IH.
Qed.

(** What one run of the whole script adds, configured or not. *)
Lemma app_summary (now : datetime) (chat_input : option string) (w : World) :
  let w' := snd (whole now chat_input w) in
  (exists more,
      history w' = (history w ++ more)%list /\
      (configured secrets configure_model ->
       said_by "user" more = submitted_prompt chat_input) /\
      List.length (said_by "assistant" more)
        <= List.length (submitted_prompt chat_input)
           + match session_messages w with Some _ => 0 | None => 1 end) /\
  (exists calls,
      model_calls (trace w') = (model_calls (trace w) ++ calls)%list /\
      (configured secrets configure_model ->
       List.length (submitted_prompt chat_input) <= List.length calls) /\
      List.length calls <= 2 * List.length (submitted_prompt chat_input)) /\
  cache_step w w'.
Proof.
  intros w'. subst w'.
  destruct (configure_result w) as [[Hc _] | [Hn _]].
  - rewrite (app_configured now chat_input w Hc).
    destruct (run_script_summary now chat_input w)
      as ((more & Hs & Hu & Ha) & (calls & Hcalls & Hlo & Hhi) & Hstep).
    split; [| split; [| exact Hstep]].
    + unfold history at 1. rewrite Hs. unfold history.
      destruct (session_messages w) as [ms |].
      * exists more. split; [reflexivity |]. split; [intros _; exact Hu | lia].
      * exists (greeting :: more). split; [reflexivity |].
        split; [intros _; exact Hu |].
        change (greeting :: more) with ([greeting] ++ more)%list.
        rewrite said_by_app, length_app. cbn. cbn in Ha. lia.
    + exists calls. split; [exact Hcalls |]. split; [intros _; exact Hlo | exact Hhi].
  - rewrite (app_unconfigured now chat_input w Hn). cbn [snd].
    split; [| split].
    + exists []. rewrite app_nil_r. split; [reflexivity |].
      split; [intros Hc; contradiction | cbn; lia].
    + exists []. unfold add_events; cbn [trace]. rewrite model_calls_app. cbn.
      split; [reflexivity |]. split; [intros Hc; contradiction | lia].
    + apply (cache_step_events w _ [StError configuration_error_text]); reflexivity.
Qed.

Lemma session_history_extends (later : list (datetime * option string)) (w : World) :
  exists more, history (visit later w) = (history w ++ more)%list.
Proof.
  revert w. induction later as [| [now chat_input] later IH]; intros w.
  - exists []. rewrite app_nil_r. reflexivity.
  - cbn [session].
    destruct (app_summary now chat_input w) as ((more & Hh & _) & _).
    destruct (IH (snd (whole now chat_input w))) as (more' & Hh').
    exists (more ++ more')%list. rewrite Hh', Hh, app_assoc. reflexivity.
Qed.

(** Over any number of runs, raised or not, the history keeps what it
    had, in place: a later history is an earlier one with more at its
    end. *)
Theorem session_history_only_grows
    (runs later : list (datetime * option string)) (w : World) :
  exists more,
    history (visit (runs ++ later) w) = (history (visit runs w) ++ more)%list.
Proof. rewrite session_app. apply session_history_extends. Qed.

(** With the model configured, the user messages of the history are the
    submitted prompts, each once and in the order of submission, whether
    or not its turn raised. *)
Theorem session_user_messages_are_the_prompts
    (runs : list (datetime * option string)) (w : World) :
  configured secrets configure_model ->
  said_by "user" (history (visit runs w))
  = (said_by "user" (history w) ++ submitted runs)%list.
Proof.
  intros Hc. revert w. induction runs as [| [now chat_input] runs IH]; intros w.
  - cbn. rewrite app_nil_r. reflexivity.
  - cbn [session]. rewrite IH.
    destruct (app_summary now chat_input w) as ((more & Hh & Hu & _) & _).
    rewrite Hh, said_by_app, (Hu Hc), <- app_assoc. reflexivity.
Qed.

(** From the first visit on, the history starts with the greeting, and it
    holds at most one assistant message per submitted prompt besides. *)
Theorem session_assistant_messages
    (runs : list (datetime * option string)) :
  configured secrets configure_model ->
  runs <> [] ->
  (exists rest, history (visit runs initial_world) = greeting :: rest) /\
  List.length (said_by "assistant" (history (visit runs initial_world)))
    <= 1 + List.length (submitted runs).
Proof.
  intros Hc Hne.
  assert (Hgen : forall later w,
             List.length (said_by "assistant" (history (visit later w)))
             <= List.length (said_by "assistant" (history w))
                + List.length (submitted later)
                + match session_messages w with Some _ => 0 | None => 1 end).
  { induction later as [| [now chat_input] later IH]; intros w; [cbn; lia |].
    cbn [session]. specialize (IH (snd (whole now chat_input w))).
    destruct (app_summary now chat_input w) as ((more & Hh & _ & Ha) & _).
    rewrite Hh, said_by_app, length_app in IH.
    unfold submitted in *. cbn [flat_map]. rewrite length_app. cbn [snd].
    assert (Hs' : exists ms', session_messages (snd (whole now chat_input w)) = Some ms').
    { rewrite (app_configured now chat_input w Hc).
      destruct (run_script_summary now chat_input w) as ((m & Hm & _) & _).
      eexists. exact Hm. }
    destruct Hs' as (ms' & Hs'). rewrite Hs' in IH.
    destruct (session_messages w); lia. }
  split.
  - destruct runs as [| [now chat_input] runs]; [contradiction Hne; reflexivity |].
    cbn [session].
    destruct (session_history_extends runs (snd (whole now chat_input initial_world)))
      as (more & Hh).
    rewrite Hh.
    rewrite (app_configured now chat_input initial_world Hc).
    destruct (run_script_summary now chat_input initial_world) as ((m & Hm & _) & _).
    unfold history at 1. rewrite Hm. cbn. eexists. reflexivity.
  - specialize (Hgen runs initial_world). cbn in Hgen. lia.
Qed.

(** Every submitted prompt costs one or two calls of the model, and a run
    without one costs none: no call is ever repeated. *)
Theorem session_model_calls (runs : list (datetime * option string)) (w : World) :
  List.length (model_calls (trace (visit runs w)))
    <= List.length (model_calls (trace w)) + 2 * List.length (submitted runs) /\
  (configured secrets configure_model ->
   List.length (model_calls (trace w)) + List.length (submitted runs)
     <= List.length (model_calls (trace (visit runs w)))).
Proof.
  revert w. induction runs as [| [now chat_input] runs IH]; intros w.
  - cbn. split; [lia | intros _; lia].
  - cbn [session]. destruct (IH (snd (whole now chat_input w))) as [IHhi IHlo].
    destruct (app_summary now chat_input w) as (_ & (calls & Hcalls & Hlo & Hhi) & _).
    rewrite Hcalls, length_app in IHhi, IHlo.
    unfold submitted in *. cbn [flat_map]. rewrite length_app. cbn [snd].
    split; [lia |]. intros Hc. specialize (IHlo Hc). specialize (Hlo Hc). lia.
Qed.

Lemma session_cache_step (runs : list (datetime * option string)) (w : World) :
  cache_step w (visit runs w).
Proof.
  revert w. induction runs as [| [now chat_input] runs IH]; intros w.
  - apply cache_step_refl.
  - cbn [session]. eapply cache_step_trans; [| apply IH].
    destruct (app_summary now chat_input w) as (_ & _ & Hstep). exact Hstep.
Qed.

(** In a process that starts without a cached table, the body of
    [load_data] runs at most once, however many turns follow. *)
Theorem table_is_fetched_at_most_once (runs : list (datetime * option string)) :
  invocations FLoadData (trace (visit runs initial_world)) <= 1.
Proof.
  pose proof (session_cache_step runs initial_world) as H.
  unfold cache_step in H. cbn in H. destruct H as [[_ ->] | [_ ->]]; lia.
Qed.

(** A table that is cached stays: later runs return it and never fetch
    again, also when it is the empty table of a failed fetch. *)
Theorem cached_table_is_kept (runs : list (datetime * option string)) (w : World)
    (cached : DataFrame * list string) :
  data_cache w = Some cached ->
  data_cache (visit runs w) = Some cached /\
  invocations FLoadData (trace (visit runs w)) = invocations FLoadData (trace w) /\
  fst (load (visit runs w)) = inr (fst cached).
Proof.
  intros Hc. pose proof (session_cache_step runs w) as H.
  unfold cache_step in H. rewrite Hc in H. destruct H as [Hc' Hi].
  split; [exact Hc' |]. split; [exact Hi |].
  rewrite load_data_returns. unfold table_for. rewrite Hc'.
  destruct cached. reflexivity.
Qed.

(** Without a working configuration every run shows the configuration
    error and stops there: no history, no call of the model, no fetch. *)
Theorem unconfigured_session_only_shows_the_error
    (runs : list (datetime * option string)) (w : World) :
  ~ configured secrets configure_model ->
  visit runs w
  = add_events w (repeat (StError configuration_error_text) (List.length runs)).
Proof.
  intros Hn. revert w. induction runs as [| [now chat_input] runs IH]; intros w.
  - cbn. rewrite add_events_nil. reflexivity.
  - cbn [session]. rewrite (app_unconfigured now chat_input w Hn). cbn [snd].
    rewrite IH, add_events_add. reflexivity.
Qed.

End SessionFacts.

(* ================================================================= *)
(** ** The theorems on turns and sessions at work *)

(** The reply of the scenario, bare. *)
Lemma bare_intent_is_kept :
  Text.occurs "`" Demo.cheesy_reply = false /\
  clean_reply ("```json" ++ Demo.cheesy_reply ++ "```") = Demo.cheesy_reply.
Proof.
  split; [vm_compute; reflexivity |].
  destruct (fenced_reply_is_unwrapped Demo.cheesy_reply) as (_ & H & _).
  - vm_compute; reflexivity.
  - rewrite H. vm_compute. reflexivity.
Defined.

(** The scenario of the specification ends normally, its intent being
    answerable. *)
Lemma cheesy_turn_is_answerable :
  session_messages Demo.greeted = Some [greeting] /\
  fst (Demo.turn Demo.cheesy_replies "near CST, 200, something cheesy" Demo.greeted)
  = inr tt /\
  answerable
    (extracted (Demo.scripted Demo.cheesy_replies) Json.loads
       (List.length (model_calls (trace Demo.greeted)))
       "near CST, 200, something cheesy")
    (table_for Demo.secrets Demo.read_csv Demo.greeted).
Proof.
  split; [reflexivity |].
  assert (Hrun : fst (Demo.turn Demo.cheesy_replies "near CST, 200, something cheesy"
                        Demo.greeted) = inr tt) by (vm_compute; reflexivity).
  split; [exact Hrun |].
  apply (turn_ends_normally_iff_answerable
           (Demo.scripted Demo.cheesy_replies) Json.loads Demo.secrets Demo.read_csv
           Demo.to_json Demo.py_repr Demo.half_past_one
           "near CST, 200, something cheesy" Demo.greeted [greeting] eq_refl).
  exact Hrun.
Defined.

(** The turn without a budget raises the KeyError and keeps the user
    message. *)
Lemma turn_without_budget_escapes :
  session_messages Demo.greeted = Some [greeting] /\
  fst (Demo.turn Demo.location_only "I am near CST" Demo.greeted)
  = inl (Exn KeyError "'budget'") /\
  session_messages (snd (Demo.turn Demo.location_only "I am near CST" Demo.greeted))
  = Some ([greeting] ++ [Message "user" "I am near CST"])%list.
Proof.
  split; [reflexivity |].
  assert (Hrun : fst (Demo.turn Demo.location_only "I am near CST" Demo.greeted)
                 = inl (Exn KeyError "'budget'")) by (vm_compute; reflexivity).
  split; [exact Hrun |].
  apply (turn_raises_only_key_or_attribute_errors
           (Demo.scripted Demo.location_only) Json.loads Demo.secrets Demo.read_csv
           Demo.to_json Demo.py_repr Demo.half_past_one "I am near CST" Demo.greeted
           [greeting] (Exn KeyError "'budget'") eq_refl Hrun).
Defined.

(** The scenario of the specification, step by step. *)
Lemma cheesy_turn_asks_twice :
  let kv := [("location", PStr "CST"); ("budget", PInt 200); ("craving", PStr "cheesy")] in
  let run :=
    Demo.turn Demo.cheesy_replies "near CST, 200, something cheesy" Demo.greeted in
  extracted (Demo.scripted Demo.cheesy_replies) Json.loads
    (List.length (model_calls (trace Demo.greeted)))
    "near CST, 200, something cheesy" = PDict kv /\
  empty (table_for Demo.secrets Demo.read_csv Demo.greeted) = false /\
  exists response_message,
    fst run = inr tt /\
    session_messages (snd run)
    = Some ([greeting] ++ [Message "user" "near CST, 200, something cheesy";
                           Message "assistant" response_message])%list.
Proof.
  intros kv run.
  assert (Hx : extracted (Demo.scripted Demo.cheesy_replies) Json.loads
                 (List.length (model_calls (trace Demo.greeted)))
                 "near CST, 200, something cheesy" = PDict kv)
    by (vm_compute; reflexivity).
  split; [exact Hx |]. split; [reflexivity |].
  destruct (turn_with_full_intent
              (Demo.scripted Demo.cheesy_replies) Json.loads Demo.secrets Demo.read_csv
              Demo.to_json Demo.py_repr Demo.half_past_one
              "near CST, 200, something cheesy" Demo.greeted [greeting] kv
              (PStr "CST") (PInt 200) "cheesy"
              eq_refl Hx eq_refl eq_refl eq_refl eq_refl eq_refl)
    as (r & H1 & H2 & _).
  exists r. split; [exact H1 | exact H2].
Defined.

(** The same request when the sheet could not be fetched. *)
Lemma cheesy_turn_without_sheet :
  let kv := [("location", PStr "CST"); ("budget", PInt 200); ("craving", PStr "cheesy")] in
  let run :=
    handle_prompt (Demo.scripted Demo.cheesy_replies) Json.loads Demo.secrets
      Demo.read_csv_down Demo.to_json Demo.py_repr Demo.half_past_one
      "near CST, 200, something cheesy" Demo.greeted in
  empty (table_for Demo.secrets Demo.read_csv_down Demo.greeted) = true /\
  fst run = inr tt /\
  session_messages (snd run)
  = Some ([greeting] ++ [Message "user" "near CST, 200, something cheesy";
                         Message "assistant" unavailable_message])%list /\
  model_calls (trace (snd run))
  = (model_calls (trace Demo.greeted)
     ++ [extraction_prompt "near CST, 200, something cheesy"])%list.
Proof.
  intros kv run. split; [reflexivity |].
  assert (Hx : extracted (Demo.scripted Demo.cheesy_replies) Json.loads
                 (List.length (model_calls (trace Demo.greeted)))
                 "near CST, 200, something cheesy" = PDict kv)
    by (vm_compute; reflexivity).
  exact (turn_on_empty_table
           (Demo.scripted Demo.cheesy_replies) Json.loads Demo.secrets
           Demo.read_csv_down Demo.to_json Demo.py_repr Demo.half_past_one
           "near CST, 200, something cheesy" Demo.greeted [greeting] kv
           (PStr "CST") (PInt 200) (PStr "cheesy")
           eq_refl Hx eq_refl eq_refl eq_refl eq_refl eq_refl).
Defined.

Lemma demo_is_configured : configured Demo.keys Demo.configure_model.
Proof. exists "AIza-demo". split; reflexivity. Defined.

(** Three runs, one prompt: one user message. *)
Lemma three_runs_one_user_message :
  configured Demo.keys Demo.configure_model /\
  said_by "user" (history (Demo.visits Demo.cheesy_replies Demo.three_runs))
  = (said_by "user" (history initial_world) ++ submitted Demo.three_runs)%list.
Proof.
  split; [exact demo_is_configured |].
  apply (session_user_messages_are_the_prompts
           (Demo.scripted Demo.cheesy_replies) Json.loads Demo.keys Demo.read_csv
           Demo.to_json Demo.py_repr Demo.configure_model Demo.three_runs
           initial_world demo_is_configured).
Defined.

(** Three runs: the greeting first, and two assistant messages at most. *)
Lemma three_runs_start_with_greeting :
  configured Demo.keys Demo.configure_model /\
  Demo.three_runs <> [] /\
  (exists rest,
      history (Demo.visits Demo.cheesy_replies Demo.three_runs) = greeting :: rest) /\
  List.length (said_by "assistant"
                 (history (Demo.visits Demo.cheesy_replies Demo.three_runs)))
    <= 1 + List.length (submitted Demo.three_runs).
Proof.
  split; [exact demo_is_configured |]. split; [discriminate |].
  apply (session_assistant_messages
           (Demo.scripted Demo.cheesy_replies) Json.loads Demo.keys Demo.read_csv
           Demo.to_json Demo.py_repr Demo.configure_model Demo.three_runs
           demo_is_configured).
  discriminate.
Defined.

(** Three runs, one prompt: between one and two calls of the model. *)
Lemma three_runs_two_calls_at_most :
  configured Demo.keys Demo.configure_model /\
  List.length (submitted Demo.three_runs)
    <= List.length (model_calls (trace (Demo.visits Demo.cheesy_replies Demo.three_runs)))
    <= 2 * List.length (submitted Demo.three_runs).
Proof.
  split; [exact demo_is_configured |].
  destruct (session_model_calls
              (Demo.scripted Demo.cheesy_replies) Json.loads Demo.keys Demo.read_csv
              Demo.to_json Demo.py_repr Demo.configure_model Demo.three_runs
              initial_world) as [Hhi Hlo].
  specialize (Hlo demo_is_configured). cbn [initial_world trace model_calls List.length] in *.
  unfold Demo.visits. lia.
Defined.

(** After a failed fetch the empty table is what every later run gets. *)
Lemma failed_fetch_is_kept :
  let cached := (empty_frame, [sheet_trouble_text (Exn (OtherException "HTTPError")
                                                      "HTTP Error 404: Not Found")]) in
  let later :=
    session (Demo.scripted Demo.cheesy_replies) Json.loads Demo.keys Demo.read_csv
      Demo.to_json Demo.py_repr Demo.configure_model Demo.three_runs Demo.fetch_failed in
  data_cache Demo.fetch_failed = Some cached /\
  data_cache later = Some cached /\
  invocations FLoadData (trace later) = invocations FLoadData (trace Demo.fetch_failed) /\
  fst (load_data Demo.keys Demo.read_csv later) = inr empty_frame.
Proof.
  intros cached later. split; [reflexivity |].
  apply (cached_table_is_kept
           (Demo.scripted Demo.cheesy_replies) Json.loads Demo.keys Demo.read_csv
           Demo.to_json Demo.py_repr Demo.configure_model Demo.three_runs
           Demo.fetch_failed cached).
  reflexivity.
Defined.

(** Without the key of the model the three runs show the error three
    times and nothing else. *)
Lemma three_runs_without_key :
  ~ configured Demo.no_secrets Demo.configure_model /\
  session (Demo.scripted Demo.cheesy_replies) Json.loads Demo.no_secrets Demo.read_csv
    Demo.to_json Demo.py_repr Demo.configure_model Demo.three_runs initial_world
  = add_events initial_world
      (repeat (StError configuration_error_text) (List.length Demo.three_runs)).
Proof.
  assert (Hn : ~ configured Demo.no_secrets Demo.configure_model)
    by (intros (k & Hk & _); discriminate Hk).
  split; [exact Hn |].
  apply (unconfigured_session_only_shows_the_error
           (Demo.scripted Demo.cheesy_replies) Json.loads Demo.no_secrets Demo.read_csv
           Demo.to_json Demo.py_repr Demo.configure_model Demo.three_runs
           initial_world Hn).
Defined.
